(** * Timeline-2-Office-Day-Counter: the day classifier and its calendar utilities

    A shallow embedding of [utils.py], [main.py] ([categorize_days]) and
    [main_simple.py] ([categorize_days_simple]), and the properties of the
    classification that the specification states about them.

    Conventions of the embedding.
    - A Python [str] is a Rocq [string]: the UTF-8 bytes of the text.  Byte-wise
      lexicographic order on UTF-8 is code point order, which is how Python
      compares [str].
    - A Python [float] is a primitive binary64 [float]; [int] is [Z].
    - A raised exception is a value [Raise e] of the result type [pyres];
      [try: ... except: v] is [try_except].
    - What the interpreter and the C library provide and the repository does
      not define ([float(str)], [datetime.fromisoformat], [math.sin],
      [math.cos], [math.atan2], the power operator on floats) is a field of
      the class [PyRuntime], and the iteration order of a [set] is the class
      [SetOrder]; every theorem holds for every runtime and every order, and
      [ref_runtime] and [ref_order] are the instances the examples are
      evaluated with. *)

From Stdlib Require Import ZArith Bool Ascii String List Lia Floats Sorting.Sorted.
From stdpp Require Import base decidable option list sorting gmap strings.

Local Open Scope string_scope.
Local Open Scope Z_scope.
#[local] Set Warnings "-inexact-float".

(** ** Python results: a value or a raised exception *)

Inductive exn : Type :=
| ValueError
| IndexError
| OverflowError
| LoopFuel.

Inductive pyres (A : Type) : Type :=
| Ok (a : A)
| Raise (e : exn).
Arguments Ok {A} a.
Arguments Raise {A} e.

#[global] Instance pyres_ret : MRet pyres := fun A a => Ok a.
#[global] Instance pyres_bind : MBind pyres :=
  fun A B f m => match m with Ok a => f a | Raise e => Raise e end.

(** [try: m  except: handler] with a bare [except]. *)
Definition try_except {A} (m : pyres A) (handler : A) : A :=
  match m with Ok a => a | Raise _ => handler end.

Definition of_option {A} (e : exn) (o : option A) : pyres A :=
  match o with Some a => Ok a | None => Raise e end.

(** ** Python string operations used by the sources *)

Module PyStr.

(** [s.replace(old, new)] for a non-empty [old]: occurrences are replaced left
    to right without overlap.  [skip] counts the bytes of the occurrence just
    replaced that are still to be dropped. *)
Fixpoint replace_aux (old new : string) (skip : nat) (s : string) : string :=
  match s with
  | EmptyString => EmptyString
  | String c s' =>
      match skip with
      | S k => replace_aux old new k s'
      | O =>
          if String.prefix old s
          then (new ++ replace_aux old new (String.length old - 1) s')%string
          else String c (replace_aux old new 0 s')
      end
  end.

Definition replace (old new s : string) : string := replace_aux old new 0 s.

(** [s.split(sep)] for a one-character separator: never an empty list. *)
Fixpoint split (sep : ascii) (s : string) : list string :=
  match s with
  | EmptyString => [EmptyString]
  | String c s' =>
      if Ascii.eqb c sep then EmptyString :: split sep s'
      else match split sep s' with
           | [] => [String c EmptyString]
           | p :: ps => String c p :: ps
           end
  end.

(** The ASCII characters for which [str.isspace] holds: tab, line feed,
    vertical tab, form feed, carriage return, the four separators 0x1c-0x1f
    and the space. *)
Definition is_space (c : ascii) : bool :=
  let n := nat_of_ascii c in
  ((9 <=? n) && (n <=? 13) || (28 <=? n) && (n <=? 32))%nat.

Fixpoint lstrip (s : string) : string :=
  match s with
  | EmptyString => EmptyString
  | String c s' => if is_space c then lstrip s' else s
  end.

(** [rstrip] keeps a character when it is not a space or when something
    that is kept follows it. *)
Fixpoint rstrip (s : string) : string :=
  match s with
  | EmptyString => EmptyString
  | String c s' =>
      match rstrip s' with
      | EmptyString => if is_space c then EmptyString else String c EmptyString
      | r => String c r
      end
  end.

Definition strip (s : string) : string := rstrip (lstrip s).

Definition is_digit (c : ascii) : bool :=
  let n := nat_of_ascii c in ((48 <=? n) && (n <=? 57))%nat.

Definition digit_val (c : ascii) : Z := Z.of_nat (nat_of_ascii c) - 48.

Definition digit_char (d : Z) : ascii := ascii_of_nat (Z.to_nat (48 + d)).

(** The digits of [int(str)] after the sign: decimal digits, single
    underscores allowed between two digits. *)
Fixpoint int_digits (s : string) (acc : Z) (after_digit : bool) : option Z :=
  match s with
  | EmptyString => if after_digit then Some acc else None
  | String c s' =>
      if Ascii.eqb c "_" then
        if after_digit then
          match s' with
          | EmptyString => None
          | String c' _ => if is_digit c' then int_digits s' acc false else None
          end
        else None
      else if is_digit c then int_digits s' (10 * acc + digit_val c) true
      else None
  end.

(** [int(s)] for a string, base 10: surrounding whitespace, an optional sign,
    then the digits.  Anything else is a [ValueError]. *)
Definition int (s : string) : pyres Z :=
  match strip s with
  | String "+" r => of_option ValueError (int_digits r 0 false)
  | String "-" r => of_option ValueError (Z.opp <$> int_digits r 0 false)
  | r => of_option ValueError (int_digits r 0 false)
  end.

(** Decimal digits of a non-negative integer, most significant first. *)
Fixpoint dec_digits (fuel : nat) (n : Z) (acc : string) : string :=
  match fuel with
  | O => acc
  | S f =>
      let acc' := String (digit_char (n mod 10)) acc in
      if n <? 10 then acc' else dec_digits f (n / 10) acc'
  end.

Definition str_of_nonneg (n : Z) : string :=
  dec_digits (S (Z.to_nat (Z.log2 n))) n EmptyString.

(** Left padding with zeros up to [width] characters. *)
Fixpoint zfill_aux (k : nat) (s : string) : string :=
  match k with O => s | S k' => String "0" (zfill_aux k' s) end.

Definition zfill (width : nat) (s : string) : string :=
  zfill_aux (width - String.length s) s.

(** The format specifications [{n:02d}] and [{n:04d}]: sign-aware zero
    padding, the sign counting for the width. *)
Definition format_0d (width : nat) (n : Z) : string :=
  if n <? 0 then String "-" (zfill (width - 1) (str_of_nonneg (- n)))
  else zfill width (str_of_nonneg n).

End PyStr.

(** ** [datetime]: dates, times of day and their formatting

    [strftime('%A')] is taken in the C locale (English day names);
    [strftime('%Y-%m-%d')] pads the year to four digits, as the library
    documents it. *)

Record date : Type := mk_date_raw { d_year : Z; d_month : Z; d_day : Z }.

Record time : Type :=
  mk_time { t_hour : Z; t_minute : Z; t_second : Z; t_microsecond : Z }.

(** An aware or naive [datetime]; [dt_utcoffset] is the offset in
    microseconds. *)
Record datetime : Type :=
  mk_datetime { dt_date : date; dt_time : time; dt_utcoffset : option Z }.

Module Calendar.

Definition is_leap (y : Z) : bool :=
  (y mod 4 =? 0) && (negb (y mod 100 =? 0) || (y mod 400 =? 0)).

Definition month_length (leap : bool) (m : Z) : Z :=
  if m =? 2 then (if leap then 29 else 28)
  else if (m =? 4) || (m =? 6) || (m =? 9) || (m =? 11) then 30
  else 31.

Definition days_in_month (y m : Z) : Z := month_length (is_leap y) m.

Definition days_before_year (y : Z) : Z :=
  let y1 := y - 1 in y1 * 365 + y1 / 4 - y1 / 100 + y1 / 400.

Fixpoint days_before_month_aux (y : Z) (k : nat) : Z :=
  match k with
  | O => 0
  | S k' => days_before_month_aux y k' + days_in_month y (Z.of_nat k)
  end.

(** Days of the year before the first day of month [m]. *)
Definition days_before_month (y m : Z) : Z :=
  days_before_month_aux y (Z.to_nat (m - 1)).

(** [date.toordinal()]: 1 for 0001-01-01. *)
Definition toordinal (d : date) : Z :=
  days_before_year (d_year d) + days_before_month (d_year d) (d_month d) + d_day d.

(** [date.weekday()]: Monday is 0. *)
Definition weekday (d : date) : Z := (toordinal d + 6) mod 7.

Definition day_names : list string :=
  ["Monday"; "Tuesday"; "Wednesday"; "Thursday"; "Friday"; "Saturday"; "Sunday"].

(** [d.strftime('%A')]. *)
Definition strftime_A (d : date) : string :=
  nth (Z.to_nat (weekday d)) day_names "".

(** [d.strftime('%Y-%m-%d')]. *)
Definition strftime_Ymd (d : date) : string :=
  (PyStr.format_0d 4 (d_year d) ++ "-" ++ PyStr.format_0d 2 (d_month d) ++ "-"
   ++ PyStr.format_0d 2 (d_day d))%string.

Definition valid_date (y m d : Z) : bool :=
  (1 <=? y) && (y <=? 9999) && (1 <=? m) && (m <=? 12)
  && (1 <=? d) && (d <=? days_in_month y m).

(** The constructor [date(y, m, d)]: [ValueError] outside the calendar. *)
Definition mk_date (y m d : Z) : pyres date :=
  if valid_date y m d then Ok (mk_date_raw y m d) else Raise ValueError.

(** [d1 <= d2] on dates. *)
Definition date_leb (d1 d2 : date) : bool :=
  (d_year d1 <? d_year d2)
  || ((d_year d1 =? d_year d2)
      && ((d_month d1 <? d_month d2)
          || ((d_month d1 =? d_month d2) && (d_day d1 <=? d_day d2)))).

Definition next_day (d : date) : date :=
  if d_day d <? days_in_month (d_year d) (d_month d)
  then mk_date_raw (d_year d) (d_month d) (d_day d + 1)
  else if d_month d <? 12 then mk_date_raw (d_year d) (d_month d + 1) 1
  else mk_date_raw (d_year d + 1) 1 1.

(** [d + timedelta(days=1)]: the next calendar day, [OverflowError] past
    [date.max], which is 9999-12-31. *)
Definition add_one_day (d : date) : pyres date :=
  let d' := next_day d in
  if d_year d' <=? 9999 then Ok d' else Raise OverflowError.

(** [t1 <= t2] on naive times of day: the tuples (hour, minute, second,
    microsecond) compared lexicographically. *)
Definition time_key (t : time) : Z :=
  ((t_hour t * 60 + t_minute t) * 60 + t_second t) * 1000000 + t_microsecond t.

Definition time_leb (t1 t2 : time) : bool :=
  (t_hour t1 <? t_hour t2)
  || ((t_hour t1 =? t_hour t2)
      && ((t_minute t1 <? t_minute t2)
          || ((t_minute t1 =? t_minute t2)
              && ((t_second t1 <? t_second t2)
                  || ((t_second t1 =? t_second t2)
                      && (t_microsecond t1 <=? t_microsecond t2)))))).

(** [datetime.strptime(s, "%H:%M").time()].  The format compiles to the
    regular expression [(2[0-3]|[0-1]\d|\d):([0-5]\d|\d)]; the first match in
    the order of the alternatives is taken, and input left over after it is a
    [ValueError]. *)
Definition match_H (s : string) : list (Z * string) :=
  match s with
  | String c1 r1 =>
      (match r1 with
       | String c2 r2 =>
           (if Ascii.eqb c1 "2" && PyStr.is_digit c2 && (PyStr.digit_val c2 <=? 3)
            then [(20 + PyStr.digit_val c2, r2)] else [])
           ++ (if PyStr.is_digit c1 && (PyStr.digit_val c1 <=? 1) && PyStr.is_digit c2
               then [(10 * PyStr.digit_val c1 + PyStr.digit_val c2, r2)] else [])
       | EmptyString => []
       end)
      ++ (if PyStr.is_digit c1 then [(PyStr.digit_val c1, r1)] else [])
  | EmptyString => []
  end.

Definition match_M (s : string) : list (Z * string) :=
  match s with
  | String c1 r1 =>
      (match r1 with
       | String c2 r2 =>
           if PyStr.is_digit c1 && (PyStr.digit_val c1 <=? 5) && PyStr.is_digit c2
           then [(10 * PyStr.digit_val c1 + PyStr.digit_val c2, r2)] else []
       | EmptyString => []
       end)
      ++ (if PyStr.is_digit c1 then [(PyStr.digit_val c1, r1)] else [])
  | EmptyString => []
  end.

(** The first way to match hours, a colon and minutes, with what is left. *)
Definition match_HM (s : string) : option (Z * Z * string) :=
  head (flat_map (fun '(h, r) =>
                    match r with
                    | String c r' =>
                        if Ascii.eqb c ":" then
                          match match_M r' with
                          | (m, rest) :: _ => [(h, m, rest)]
                          | [] => []
                          end
                        else []
                    | EmptyString => []
                    end) (match_H s)).

Definition strptime_HM (s : string) : pyres time :=
  match match_HM s with
  | Some (h, m, EmptyString) => Ok (mk_time h m 0 0)
  | _ => Raise ValueError
  end.

End Calendar.

(** ** What the interpreter provides *)

Class PyRuntime : Type := {
  (** [float(s)] on a string: the value, or [ValueError]. *)
  float_of_str : string -> pyres float;
  (** [datetime.fromisoformat(s)]: the value, or [ValueError]. *)
  datetime_fromisoformat : string -> pyres datetime;
  (** The C library's [sin], [cos], [atan2] and [pow]. *)
  libm_sin : float -> float;
  libm_cos : float -> float;
  libm_atan2 : float -> float -> float;
  libm_pow : float -> float -> float
}.

(** The iteration order of sets of strings.  A set is iterated in the order
    of the slots its keys occupy in the hash table; the hash of a string
    changes from one run of the interpreter to the next, so the slot of a key
    is a parameter of the run. *)
Class SetOrder : Type := { set_slot : string -> N }.

Module PyMath.
Section with_runtime.
Context `{PyRuntime}.

(** [math.radians(x)] is [x * (pi / 180)]. *)
Definition radians (x : float) : float := (x * 0x1.1df46a2529d39p-6)%float.

(** [math.sin] and [math.cos]: [ValueError] on an infinite argument. *)
Definition sin (x : float) : pyres float :=
  if is_infinity x then Raise ValueError else Ok (libm_sin x).

Definition cos (x : float) : pyres float :=
  if is_infinity x then Raise ValueError else Ok (libm_cos x).

(** [math.sqrt]: [ValueError] on a negative argument. *)
Definition sqrt (x : float) : pyres float :=
  if (x <? 0)%float then Raise ValueError else Ok (PrimFloat.sqrt x).

Definition atan2 (y x : float) : float := libm_atan2 y x.

(** [x ** 2] on a float: [OverflowError] when a finite [x] overflows. *)
Definition pow2 (x : float) : pyres float :=
  let r := libm_pow x 2 in
  if is_finite x && is_infinity r then Raise OverflowError else Ok r.

End with_runtime.
End PyMath.

(** [min(a, b)]: the first argument unless the second is smaller. *)
Definition py_min (a b : float) : float := if (b <? a)%float then b else a.

(** [x in l] for a list of strings. *)
Definition in_list (x : string) (l : list string) : bool := bool_decide (x ∈ l).

(** Truth value of a string: the empty string is false. *)
Definition str_truthy (s : string) : bool :=
  match s with EmptyString => false | _ => true end.

(** Truth value of [config.get('calendar_year')]: [None] and [0] are false. *)
Definition year_truthy (y : option Z) : bool :=
  match y with Some n => negb (n =? 0) | None => false end.

(** ** The order of day keys and the iteration of sets *)

Definition str_le (a b : string) : Prop := String.leb a b = true.

#[global] Instance str_le_dec : RelDecision str_le.
Proof. intros a b. unfold str_le. apply _. Defined.

Section sets.
Context `{SetOrder}.

Definition slot_le (a b : string) : Prop := (set_slot a <= set_slot b)%N.

#[global] Instance slot_le_dec : RelDecision slot_le.
Proof. intros a b. unfold slot_le. apply _. Defined.

(** [for x in s] over a set of strings: the elements in slot order. *)
Definition set_iter (s : gset string) : list string :=
  merge_sort slot_le (elements s).

(** [sorted(s)]: the list of the iteration, sorted by [<] on strings. *)
Definition sorted (s : gset string) : list string :=
  merge_sort str_le (set_iter s).

End sets.

(** ** utils.py *)

Section utils.
Context `{PyRuntime}.

(** The degree sign, U+00B0, in UTF-8. *)
Definition degree_sign : string := String "194" (String "176" EmptyString).

Definition haversine_distance (lat1 lon1 lat2 lon2 : float) : pyres float :=
  let R := 6371000%float in
  let phi1 := PyMath.radians lat1 in
  let phi2 := PyMath.radians lat2 in
  let delta_phi := PyMath.radians (lat2 - lat1) in
  let delta_lambda := PyMath.radians (lon2 - lon1) in
  s1 ← PyMath.sin (delta_phi / 2);
  p1 ← PyMath.pow2 s1;
  c1 ← PyMath.cos phi1;
  c2 ← PyMath.cos phi2;
  s2 ← PyMath.sin (delta_lambda / 2);
  p2 ← PyMath.pow2 s2;
  let a := (p1 + c1 * c2 * p2)%float in
  q1 ← PyMath.sqrt a;
  q2 ← PyMath.sqrt (1 - a);
  let c := (2 * PyMath.atan2 q1 q2)%float in
  Ok (R * c)%float.

(** The body of the [try] of [parse_latlng]. *)
Definition parse_latlng_try (latlng_string : string) : pyres (float * float) :=
  let parts := PyStr.split "," (PyStr.replace degree_sign "" latlng_string) in
  p0 ← of_option IndexError (parts !! 0%nat);
  lat ← float_of_str (PyStr.strip p0);
  p1 ← of_option IndexError (parts !! 1%nat);
  lng ← float_of_str (PyStr.strip p1);
  Ok (lat, lng).

(** [parse_latlng]: the pair of floats, or the pair [(None, None)]. *)
Definition parse_latlng (latlng_string : string) : option float * option float :=
  try_except ('(lat, lng) ← parse_latlng_try latlng_string; Ok (Some lat, Some lng))
             (None, None).

(** [datetime.fromisoformat(timestamp_str.replace('Z', '+00:00'))]. *)
Definition parse_timestamp (timestamp_str : string) : pyres datetime :=
  datetime_fromisoformat (PyStr.replace "Z" "+00:00" timestamp_str).

(** [a, b = l]: exactly two values, [ValueError] otherwise. *)
Definition unpack2 {A} (l : list A) : pyres (A * A) :=
  match l with
  | [a; b] => Ok (a, b)
  | _ => Raise ValueError
  end.

(** [a, b = map(int, l)]: the conversions are made as the values are
    taken, so a third element is converted before the count is refused;
    either way the statement raises. *)
Definition unpack2_int (l : list string) : pyres (Z * Z) :=
  match l with
  | [a; b] => x ← PyStr.int a; y ← PyStr.int b; Ok (x, y)
  | _ => Raise ValueError
  end.

Definition hm_string (hour minute : Z) : string :=
  (PyStr.format_0d 2 hour ++ ":" ++ PyStr.format_0d 2 minute)%string.

(** The body of the [try] of [is_within_working_hours]. *)
Definition is_within_working_hours_try (timestamp_str working_hours : string)
  : pyres bool :=
  dt ← parse_timestamp timestamp_str;
  let time := dt_time dt in
  '(start_str, end_str) ← unpack2 (PyStr.split "-" working_hours);
  '(start_hour, start_min) ← unpack2_int (PyStr.split ":" start_str);
  '(end_hour, end_min) ← unpack2_int (PyStr.split ":" end_str);
  start_time ← Calendar.strptime_HM (hm_string start_hour start_min);
  end_time ← Calendar.strptime_HM (hm_string end_hour end_min);
  Ok (Calendar.time_leb start_time time && Calendar.time_leb time end_time).

Definition is_within_working_hours (timestamp_str working_hours : string) : bool :=
  try_except (is_within_working_hours_try timestamp_str working_hours) false.

Definition is_working_day (timestamp_str : string) (days_of_week : list string) : bool :=
  try_except
    (dt ← parse_timestamp timestamp_str;
     let day_name := Calendar.strftime_A (dt_date dt) in
     Ok (in_list day_name days_of_week))
    false.

Definition get_year_from_timestamp (timestamp_str : string) : option Z :=
  try_except
    (dt ← parse_timestamp timestamp_str; Ok (Some (d_year (dt_date dt))))
    None.

(** The [while] loop of [get_all_working_days_in_year].  [fuel] bounds the
    number of iterations; [LoopFuel] is the model's own signal that the
    bound was reached. *)
Fixpoint working_days_loop (fuel : nat) (days_of_week : list string)
    (current_date end_date : date) (working_days : gset string)
  : pyres (gset string) :=
  match fuel with
  | O => Raise LoopFuel
  | S fuel' =>
      if Calendar.date_leb current_date end_date then
        let working_days :=
          if in_list (Calendar.strftime_A current_date) days_of_week
          then working_days ∪ {[ Calendar.strftime_Ymd current_date ]}
          else working_days in
        current_date ← Calendar.add_one_day current_date;
        working_days_loop fuel' days_of_week current_date end_date working_days
      else Ok working_days
  end.

Definition get_all_working_days_in_year (year : Z) (days_of_week : list string)
  : pyres (gset string) :=
  current_date ← Calendar.mk_date year 1 1;
  end_date ← Calendar.mk_date year 12 31;
  working_days_loop 400 days_of_week current_date end_date ∅.

End utils.

(** ** The Timeline document and the configurations

    A segment is a JSON object; a key that is absent is [None].  The values
    under the keys the classifiers read are strings and objects, as the
    export has them. *)

Record PlaceLocation : Type := { latLng : option string }.

Record TopCandidate : Type := {
  placeLocation : option PlaceLocation;
  semanticType : option string
}.

Record Visit : Type := { topCandidate : option TopCandidate }.

Record Segment : Type := {
  visit : option Visit;
  startTime : option string;
  endTime : option string
}.

Record Timeline : Type := { semanticSegments : option (list Segment) }.

(** The [config] dictionary of [main.py].  [radius] is the value the
    comparisons with a distance see: the float of the configured integer. *)
Record Config : Type := {
  calendar_year : option Z;
  working_hours : string;
  days_of_week : list string;
  office_lat : float;
  office_lng : float;
  home_lat : float;
  home_lng : float;
  radius : float
}.

(** The [config] dictionary of [main_simple.py]. *)
Record SimpleConfig : Type := {
  s_calendar_year : option Z;
  s_working_hours : string;
  s_days_of_week : list string;
  work_types : gset string;
  home_types : gset string
}.

Record Breakdown : Type := {
  local : list string;
  regional : list string;
  national : list string;
  international : list string
}.

Record Result : Type := {
  office : list string;
  home : list string;
  elsewhere : list string;
  elsewhere_breakdown : Breakdown;
  missing : list string
}.

Record SimpleResult : Type := {
  s_office : list string;
  s_home : list string;
  s_elsewhere : list string;
  s_missing : list string
}.

(** The variables of the loop of [categorize_days]. *)
Record Pass : Type := {
  office_days : gset string;
  home_days : gset string;
  days_with_data : gset string;
  days_with_working_hour_visits : gset string;
  day_min_distances : gmap string float;
  segments_processed : Z;
  segments_skipped : Z
}.

(** The variables of the loop of [categorize_days_simple]. *)
Record SimplePass : Type := {
  s_office_days : gset string;
  s_home_days : gset string;
  s_days_with_data : gset string;
  s_segments_processed : Z;
  s_segments_skipped : Z
}.

Definition get_or {A} (o : option A) (default : A) : A :=
  match o with Some a => a | None => default end.

Definition empty_place_location : PlaceLocation := {| latLng := None |}.
Definition empty_top_candidate : TopCandidate :=
  {| placeLocation := None; semanticType := None |}.
Definition empty_visit : Visit := {| topCandidate := None |}.

(** ** main.py *)

Section main.
Context `{PyRuntime} `{SetOrder}.

Definition pass_init : Pass :=
  {| office_days := ∅; home_days := ∅; days_with_data := ∅;
     days_with_working_hour_visits := ∅; day_min_distances := ∅;
     segments_processed := 0; segments_skipped := 0 |}.

(** The year filter: [true] when the segment is skipped. *)
Definition year_skips (calendar_year : option Z) (start_time : string) : bool :=
  year_truthy calendar_year
  && negb (bool_decide (get_year_from_timestamp start_time = calendar_year)).

(** [dt = datetime.fromisoformat(...); date_str = dt.strftime('%Y-%m-%d')]. *)
Definition date_str_of (start_time : string) : pyres string :=
  dt ← parse_timestamp start_time;
  Ok (Calendar.strftime_Ymd (dt_date dt)).

(** The assignments of the loop, one definition per statement. *)
Definition count_skipped (st : Pass) : Pass :=
  {| office_days := office_days st; home_days := home_days st;
     days_with_data := days_with_data st;
     days_with_working_hour_visits := days_with_working_hour_visits st;
     day_min_distances := day_min_distances st;
     segments_processed := segments_processed st;
     segments_skipped := segments_skipped st + 1 |}.

Definition count_processed (st : Pass) : Pass :=
  {| office_days := office_days st; home_days := home_days st;
     days_with_data := days_with_data st;
     days_with_working_hour_visits := days_with_working_hour_visits st;
     day_min_distances := day_min_distances st;
     segments_processed := segments_processed st + 1;
     segments_skipped := segments_skipped st |}.

Definition add_day_with_data (date_str : string) (st : Pass) : Pass :=
  {| office_days := office_days st; home_days := home_days st;
     days_with_data := days_with_data st ∪ {[ date_str ]};
     days_with_working_hour_visits := days_with_working_hour_visits st;
     day_min_distances := day_min_distances st;
     segments_processed := segments_processed st;
     segments_skipped := segments_skipped st |}.

Definition add_working_hour_visit (date_str : string) (st : Pass) : Pass :=
  {| office_days := office_days st; home_days := home_days st;
     days_with_data := days_with_data st;
     days_with_working_hour_visits := days_with_working_hour_visits st ∪ {[ date_str ]};
     day_min_distances := day_min_distances st;
     segments_processed := segments_processed st;
     segments_skipped := segments_skipped st |}.

(** [if date_str not in day_min_distances or min_distance <
    day_min_distances[date_str]: day_min_distances[date_str] = min_distance]. *)
Definition track_min (date_str : string) (min_distance : float)
    (dmd : gmap string float) : gmap string float :=
  match dmd !! date_str with
  | None => <[ date_str := min_distance ]> dmd
  | Some cur =>
      if (min_distance <? cur)%float then <[ date_str := min_distance ]> dmd else dmd
  end.

Definition track_min_distance (date_str : string) (min_distance : float) (st : Pass) : Pass :=
  {| office_days := office_days st; home_days := home_days st;
     days_with_data := days_with_data st;
     days_with_working_hour_visits := days_with_working_hour_visits st;
     day_min_distances := track_min date_str min_distance (day_min_distances st);
     segments_processed := segments_processed st;
     segments_skipped := segments_skipped st |}.

Definition add_office_day (date_str : string) (st : Pass) : Pass :=
  {| office_days := office_days st ∪ {[ date_str ]}; home_days := home_days st;
     days_with_data := days_with_data st;
     days_with_working_hour_visits := days_with_working_hour_visits st;
     day_min_distances := day_min_distances st;
     segments_processed := segments_processed st;
     segments_skipped := segments_skipped st |}.

Definition add_home_day (date_str : string) (st : Pass) : Pass :=
  {| office_days := office_days st; home_days := home_days st ∪ {[ date_str ]};
     days_with_data := days_with_data st;
     days_with_working_hour_visits := days_with_working_hour_visits st;
     day_min_distances := day_min_distances st;
     segments_processed := segments_processed st;
     segments_skipped := segments_skipped st |}.

(** [visit.get('topCandidate', {}).get('placeLocation', {}).get('latLng', '')]. *)
Definition latlng_of (visit_value : Visit) : string :=
  let top_candidate := get_or (topCandidate visit_value) empty_top_candidate in
  let place_location := get_or (placeLocation top_candidate) empty_place_location in
  get_or (latLng place_location) "".

(** One iteration of the loop of [categorize_days]; a [continue] returns the
    variables as they are at that point. *)
Definition pass_step (config : Config) (st : Pass) (segment : Segment) : pyres Pass :=
  match visit segment with
  | None => Ok st
  | Some visit_value =>
  let start_time := get_or (startTime segment) "" in
  if negb (str_truthy start_time) then Ok st else
  if year_skips (calendar_year config) start_time then Ok (count_skipped st) else
  let st := count_processed st in
  match date_str_of start_time with
  | Raise _ => Ok st
  | Ok date_str =>
  if negb (is_working_day start_time (days_of_week config)) then Ok st else
  let st := add_day_with_data date_str st in
  if negb (is_within_working_hours start_time (working_hours config)) then Ok st else
  let st := add_working_hour_visit date_str st in
  let latlng := latlng_of visit_value in
  if negb (str_truthy latlng) then Ok st else
  match parse_latlng latlng with
  | (Some lat, Some lng) =>
      office_distance ← haversine_distance lat lng (office_lat config) (office_lng config);
      home_distance ← haversine_distance lat lng (home_lat config) (home_lng config);
      let min_distance := py_min office_distance home_distance in
      let st := track_min_distance date_str min_distance st in
      if (office_distance <=? radius config)%float then Ok (add_office_day date_str st)
      else if (home_distance <=? radius config)%float then Ok (add_home_day date_str st)
      else Ok st
  | _ => Ok st
  end
  end
  end.

(** [for segment in segments]. *)
Fixpoint pass_loop (config : Config) (st : Pass) (segments : list Segment) : pyres Pass :=
  match segments with
  | [] => Ok st
  | segment :: rest => st' ← pass_step config st segment; pass_loop config st' rest
  end.

Definition breakdown_init : Breakdown :=
  {| local := []; regional := []; national := []; international := [] |}.

(** One iteration of [for day in elsewhere_days]. *)
Definition breakdown_step (dmd : gmap string float) (b : Breakdown) (day : string) : Breakdown :=
  match dmd !! day with
  | Some d =>
      let distance_km := (d / 1000)%float in
      if (distance_km <? 50)%float then
        {| local := local b ++ [day]; regional := regional b;
           national := national b; international := international b |}
      else if (distance_km <? 150)%float then
        {| local := local b; regional := regional b ++ [day];
           national := national b; international := international b |}
      else if (distance_km <? 500)%float then
        {| local := local b; regional := regional b;
           national := national b ++ [day]; international := international b |}
      else
        {| local := local b; regional := regional b;
           national := national b; international := international b ++ [day] |}
  | None => b
  end.

(** The sets computed after the loop, and the returned dictionary. *)
Definition aggregate (all_possible_working_days : gset string)
    (calendar_year : option Z) (st : Pass) : Result :=
  let home_only_days := home_days st ∖ office_days st in
  let elsewhere_days :=
    days_with_working_hour_visits st ∖ office_days st ∖ home_only_days in
  let missing_days :=
    if year_truthy calendar_year
    then all_possible_working_days ∖ days_with_working_hour_visits st
    else ∅ in
  let elsewhere_breakdown :=
    fold_left (breakdown_step (day_min_distances st)) (set_iter elsewhere_days)
              breakdown_init in
  {| office := sorted (office_days st);
     home := sorted home_only_days;
     elsewhere := sorted elsewhere_days;
     elsewhere_breakdown := elsewhere_breakdown;
     missing := sorted missing_days |}.

(** [all_possible_working_days] as computed before the loop. *)
Definition expected_days (calendar_year : option Z) (days_of_week : list string)
  : pyres (gset string) :=
  if year_truthy calendar_year
  then get_all_working_days_in_year (get_or calendar_year 0) days_of_week
  else Ok ∅.

(** [categorize_days] on the loaded document [data]. *)
Definition categorize_days (data : Timeline) (config : Config) : pyres Result :=
  let segments := get_or (semanticSegments data) [] in
  let calendar_year := calendar_year config in
  all_possible_working_days ← expected_days calendar_year (days_of_week config);
  st ← pass_loop config pass_init segments;
  Ok (aggregate all_possible_working_days calendar_year st).

End main.

(** ** main_simple.py *)

Section main_simple.
Context `{PyRuntime} `{SetOrder}.

Definition simple_init : SimplePass :=
  {| s_office_days := ∅; s_home_days := ∅; s_days_with_data := ∅;
     s_segments_processed := 0; s_segments_skipped := 0 |}.

Definition s_count_skipped (st : SimplePass) : SimplePass :=
  {| s_office_days := s_office_days st; s_home_days := s_home_days st;
     s_days_with_data := s_days_with_data st;
     s_segments_processed := s_segments_processed st;
     s_segments_skipped := s_segments_skipped st + 1 |}.

Definition s_count_processed (st : SimplePass) : SimplePass :=
  {| s_office_days := s_office_days st; s_home_days := s_home_days st;
     s_days_with_data := s_days_with_data st;
     s_segments_processed := s_segments_processed st + 1;
     s_segments_skipped := s_segments_skipped st |}.

Definition s_add_day_with_data (date_str : string) (st : SimplePass) : SimplePass :=
  {| s_office_days := s_office_days st; s_home_days := s_home_days st;
     s_days_with_data := s_days_with_data st ∪ {[ date_str ]};
     s_segments_processed := s_segments_processed st;
     s_segments_skipped := s_segments_skipped st |}.

Definition s_add_office_day (date_str : string) (st : SimplePass) : SimplePass :=
  {| s_office_days := s_office_days st ∪ {[ date_str ]}; s_home_days := s_home_days st;
     s_days_with_data := s_days_with_data st;
     s_segments_processed := s_segments_processed st;
     s_segments_skipped := s_segments_skipped st |}.

Definition s_add_home_day (date_str : string) (st : SimplePass) : SimplePass :=
  {| s_office_days := s_office_days st; s_home_days := s_home_days st ∪ {[ date_str ]};
     s_days_with_data := s_days_with_data st;
     s_segments_processed := s_segments_processed st;
     s_segments_skipped := s_segments_skipped st |}.

(** [visit.get('topCandidate', {}).get('semanticType', '')]. *)
Definition semantic_type_of (visit_value : Visit) : string :=
  let top_candidate := get_or (topCandidate visit_value) empty_top_candidate in
  get_or (semanticType top_candidate) "".

(** One iteration of the loop of [categorize_days_simple]. *)
Definition simple_step (config : SimpleConfig) (st : SimplePass) (segment : Segment)
  : SimplePass :=
  match visit segment with
  | None => st
  | Some visit_value =>
  let start_time := get_or (startTime segment) "" in
  if negb (str_truthy start_time) then st else
  if year_skips (s_calendar_year config) start_time then s_count_skipped st else
  let st := s_count_processed st in
  match date_str_of start_time with
  | Raise _ => st
  | Ok date_str =>
  if negb (is_working_day start_time (s_days_of_week config)) then st else
  let st := s_add_day_with_data date_str st in
  if negb (is_within_working_hours start_time (s_working_hours config)) then st else
  let semantic_type := semantic_type_of visit_value in
  if negb (str_truthy semantic_type) then st else
  if bool_decide (semantic_type ∈ work_types config) then s_add_office_day date_str st
  else if bool_decide (semantic_type ∈ home_types config) then s_add_home_day date_str st
  else st
  end
  end.

Definition simple_aggregate (all_possible_working_days : gset string)
    (calendar_year : option Z) (st : SimplePass) : SimpleResult :=
  let home_only_days := s_home_days st ∖ s_office_days st in
  let elsewhere_days := s_days_with_data st ∖ s_office_days st ∖ home_only_days in
  let missing_days :=
    if year_truthy calendar_year
    then all_possible_working_days ∖ s_days_with_data st
    else ∅ in
  {| s_office := sorted (s_office_days st);
     s_home := sorted home_only_days;
     s_elsewhere := sorted elsewhere_days;
     s_missing := sorted missing_days |}.

(** [categorize_days_simple] on the loaded document [data]. *)
Definition categorize_days_simple (data : Timeline) (config : SimpleConfig)
  : pyres SimpleResult :=
  let segments := get_or (semanticSegments data) [] in
  let calendar_year := s_calendar_year config in
  all_possible_working_days ← expected_days calendar_year (s_days_of_week config);
  let st := fold_left (simple_step config) segments simple_init in
  Ok (simple_aggregate all_possible_working_days calendar_year st).

End main_simple.

(** ** The working-hours window

    [window_of working_hours start_time end_time]: the string has the form
    [H:M-H:M], each of the four fields free of [-] and [:] and read by [int]
    as an hour from 0 to 23 or a minute from 0 to 59; [start_time] and
    [end_time] are the two times of day it names. *)

Fixpoint contains_char (c : ascii) (s : string) : bool :=
  match s with
  | EmptyString => false
  | String c' s' => Ascii.eqb c' c || contains_char c s'
  end.



(** Auxiliary readings of the window statements. *)





(** ** The order of floats

    A float that is not a NaN has a key, a triple of integers, and the
    comparisons of two such floats are the lexicographic comparisons of their
    keys.  The two zeros share a key. *)

Definition float_key (x : spec_float) : Z * Z * Z :=
  match x with
  | S754_zero _ => (0, 0, 0)
  | S754_infinity s => (if s then -2 else 2, 0, 0)
  | S754_nan => (0, 0, 0)
  | S754_finite s m e => if s then (-1, - e, Z.neg m) else (1, e, Z.pos m)
  end.

Definition key_le (a b : Z * Z * Z) : Prop :=
  a.1.1 < b.1.1
  \/ (a.1.1 = b.1.1 /\ (a.1.2 < b.1.2 \/ (a.1.2 = b.1.2 /\ a.2 <= b.2))).

Definition key_lt (a b : Z * Z * Z) : Prop :=
  a.1.1 < b.1.1
  \/ (a.1.1 = b.1.1 /\ (a.1.2 < b.1.2 \/ (a.1.2 = b.1.2 /\ a.2 < b.2))).

Definition not_nan (x : float) : Prop := Prim2SF x <> S754_nan.

Definition fkey (x : float) : Z * Z * Z := float_key (Prim2SF x).

(** The two zeros. *)
Definition is_zero_float (x : float) : Prop := x = 0%float \/ x = (-0)%float.

(** ** The fields of a coordinate string *)

(** A coordinate field: no comma and no lead byte of the degree sign. *)
Definition plain_field (s : string) : Prop :=
  contains_char "," s = false /\ contains_char "194" s = false.

(** What [parse_latlng] returns when the first two fields are [p0] and [p1]. *)
Definition latlng_of_fields `{PyRuntime} (p0 p1 : string) : option float * option float :=
  match float_of_str (PyStr.strip p0), float_of_str (PyStr.strip p1) with
  | Ok lat, Ok lng => (Some lat, Some lng)
  | _, _ => (None, None)
  end.

(** ** The calendar dates of a year

    Month and day of every date of a year, from January 1 to December 31, the
    year being a leap year or not, and the dates themselves. *)

Definition month_days (leap : bool) : list (Z * Z) :=
  m ← seqZ 1 12; d ← seqZ 1 (Calendar.month_length leap m); [(m, d)].

Definition year_dates (year : Z) : list date :=
  (fun md => mk_date_raw year md.1 md.2) <$> month_days (Calendar.is_leap year).

(** The day after month [m], day [d], within the year; [None] after
    December 31. *)
Definition next_month_day (leap : bool) (md : Z * Z) : option (Z * Z) :=
  if md.2 <? Calendar.month_length leap md.1 then Some (md.1, md.2 + 1)
  else if md.1 <? 12 then Some (md.1 + 1, 1)
  else None.

(** Every element of the list is followed by its next day, and the last
    one is the last day of the year. *)
Fixpoint is_chain (leap : bool) (l : list (Z * Z)) : bool :=
  match l with
  | [] => true
  | md :: rest =>
      match rest with
      | [] => bool_decide (next_month_day leap md = None)
      | md' :: _ => bool_decide (next_month_day leap md = Some md') && is_chain leap rest
      end
  end.

(** The day keys of the dates of a list whose day name is in [days_of_week]. *)
Definition working_day_keys (days_of_week : list string) (dates : list date) : gset string :=
  list_to_set
    (Calendar.strftime_Ymd
       <$> filter (fun d => Calendar.strftime_A d ∈ days_of_week) dates).

(** ** What one segment contributes

    The steps of the specification's single pass, read for one segment on
    its own: which of the working sets the segment reaches, with which day
    key and which distances or tag.  The loops above are related to these
    readings by [pass_step_effect] and [simple_step_effect]. *)

Inductive Effect : Type :=
| ENone                                    (* not a visit, or no start time *)
| ESkipped                                 (* another calendar year *)
| EProcessed                               (* no date, or not a working day *)
| EData (day : string)                     (* a working day, outside the hours *)
| EVisit (day : string)                    (* within the hours, no location *)
| ELocated (day : string) (office_distance home_distance : float).

Inductive SimpleEffect : Type :=
| SNone
| SSkipped
| SProcessed
| SData (day : string)                     (* a working day, outside the hours *)
| SVisit (day : string) (tag : string).    (* within the hours; [tag] may be empty *)

Section effects.
Context `{PyRuntime}.

Definition seg_effect (config : Config) (segment : Segment) : pyres Effect :=
  match visit segment with
  | None => Ok ENone
  | Some visit_value =>
      let start_time := get_or (startTime segment) "" in
      if negb (str_truthy start_time) then Ok ENone
      else if year_skips (calendar_year config) start_time then Ok ESkipped
      else match date_str_of start_time with
           | Raise _ => Ok EProcessed
           | Ok day =>
               if negb (is_working_day start_time (days_of_week config)) then Ok EProcessed
               else if negb (is_within_working_hours start_time (working_hours config))
               then Ok (EData day)
               else
                 let latlng := latlng_of visit_value in
                 if negb (str_truthy latlng) then Ok (EVisit day)
                 else match parse_latlng latlng with
                      | (Some lat, Some lng) =>
                          office_distance ←
                            haversine_distance lat lng (office_lat config) (office_lng config);
                          home_distance ←
                            haversine_distance lat lng (home_lat config) (home_lng config);
                          Ok (ELocated day office_distance home_distance)
                      | _ => Ok (EVisit day)
                      end
           end
  end.

Definition simple_effect (config : SimpleConfig) (segment : Segment) : SimpleEffect :=
  match visit segment with
  | None => SNone
  | Some visit_value =>
      let start_time := get_or (startTime segment) "" in
      if negb (str_truthy start_time) then SNone
      else if year_skips (s_calendar_year config) start_time then SSkipped
      else match date_str_of start_time with
           | Raise _ => SProcessed
           | Ok day =>
               if negb (is_working_day start_time (s_days_of_week config)) then SProcessed
               else if negb (is_within_working_hours start_time (s_working_hours config))
               then SData day
               else SVisit day (semantic_type_of visit_value)
           end
  end.

End effects.

(** The day a segment gives data for, the day it visits within the hours,
    and the marks it sets. *)
Definition eff_data (e : Effect) : option string :=
  match e with
  | EData d | EVisit d | ELocated d _ _ => Some d
  | _ => None
  end.

Definition eff_visit (e : Effect) : option string :=
  match e with
  | EVisit d | ELocated d _ _ => Some d
  | _ => None
  end.

Definition eff_distance (e : Effect) : option (string * float) :=
  match e with
  | ELocated d od hd => Some (d, py_min od hd)
  | _ => None
  end.

Definition eff_office (radius : float) (e : Effect) : option string :=
  match e with
  | ELocated d od hd => if (od <=? radius)%float then Some d else None
  | _ => None
  end.

Definition eff_home (radius : float) (e : Effect) : option string :=
  match e with
  | ELocated d od hd =>
      if (od <=? radius)%float then None
      else if (hd <=? radius)%float then Some d else None
  | _ => None
  end.

Definition seff_data (e : SimpleEffect) : option string :=
  match e with
  | SData d | SVisit d _ => Some d
  | _ => None
  end.

Definition seff_office (config : SimpleConfig) (e : SimpleEffect) : option string :=
  match e with
  | SVisit d tag =>
      if str_truthy tag && bool_decide (tag ∈ work_types config) then Some d else None
  | _ => None
  end.

Definition seff_home (config : SimpleConfig) (e : SimpleEffect) : option string :=
  match e with
  | SVisit d tag =>
      if str_truthy tag && negb (bool_decide (tag ∈ work_types config))
         && bool_decide (tag ∈ home_types config)
      then Some d else None
  | _ => None
  end.

(** What the loop of [categorize_days] does with the variables for a
    segment of a given effect. *)
Definition apply_effect (radius : float) (st : Pass) (e : Effect) : Pass :=
  match e with
  | ENone => st
  | ESkipped => count_skipped st
  | EProcessed => count_processed st
  | EData d => add_day_with_data d (count_processed st)
  | EVisit d => add_working_hour_visit d (add_day_with_data d (count_processed st))
  | ELocated d od hd =>
      let st :=
        track_min_distance d (py_min od hd)
          (add_working_hour_visit d (add_day_with_data d (count_processed st))) in
      if (od <=? radius)%float then add_office_day d st
      else if (hd <=? radius)%float then add_home_day d st
      else st
  end.

(** The same for the loop of [categorize_days_simple]. *)
Definition s_apply_effect (config : SimpleConfig) (st : SimplePass) (e : SimpleEffect)
  : SimplePass :=
  match e with
  | SNone => st
  | SSkipped => s_count_skipped st
  | SProcessed => s_count_processed st
  | SData d => s_add_day_with_data d (s_count_processed st)
  | SVisit d tag =>
      let st := s_add_day_with_data d (s_count_processed st) in
      if negb (str_truthy tag) then st
      else if bool_decide (tag ∈ work_types config) then s_add_office_day d st
      else if bool_decide (tag ∈ home_types config) then s_add_home_day d st
      else st
  end.

(** The effects of a list of segments, in order; an exception of one of
    them is the exception of the list. *)
Fixpoint seg_effects `{PyRuntime} (config : Config) (segments : list Segment)
  : pyres (list Effect) :=
  match segments with
  | [] => Ok []
  | segment :: rest =>
      e ← seg_effect config segment;
      es ← seg_effects config rest;
      Ok (e :: es)
  end.

(** The minimum distances recorded for a list of effects. *)
Definition track_effect (dmd : gmap string float) (e : Effect) : gmap string float :=
  match eff_distance e with
  | Some (d, m) => track_min d m dmd
  | None => dmd
  end.

(** The set of the days that the effects [es] mark through [f]. *)
Definition marks {A} (f : A -> option string) (es : list A) : gset string :=
  list_to_set (omap f es).

(** No day key is in two of the three lists. *)
Definition pairwise_disjoint (a b c : list string) : Prop :=
  forall d : string, ~ (d ∈ a /\ d ∈ b) /\ ~ (d ∈ a /\ d ∈ c) /\ ~ (d ∈ b /\ d ∈ c).

(** ** Distance tiers and the minimum of a day *)

Inductive Tier : Type := Local | Regional | National | International.

#[global] Instance tier_eq_dec : EqDecision Tier.
Proof. solve_decision. Defined.

(** The tier the breakdown gives a day whose recorded distance is [d]. *)
Definition tier_of_distance (d : float) : Tier :=
  let distance_km := (d / 1000)%float in
  if (distance_km <? 50)%float then Local
  else if (distance_km <? 150)%float then Regional
  else if (distance_km <? 500)%float then National
  else International.

Definition tier_list (b : Breakdown) (t : Tier) : list string :=
  match t with
  | Local => local b
  | Regional => regional b
  | National => national b
  | International => international b
  end.

(** The distances that the located visits of [day] offer to
    [day_min_distances], in the order of the segments. *)
Definition day_candidates (day : string) (es : list Effect) : list float :=
  omap (fun e => match eff_distance e with
                 | Some (d, m) => if decide (d = day) then Some m else None
                 | None => None
                 end) es.

(** The update of one entry of [day_min_distances]. *)
Definition keep_min (cur : option float) (m : float) : option float :=
  match cur with
  | None => Some m
  | Some c => Some (if (m <? c)%float then m else c)
  end.

(** No located visit of the document offers a NaN to [day_min_distances]. *)
Definition nan_free `{PyRuntime} (config : Config) (segments : list Segment) : Prop :=
  forall segment d od hd,
    segment ∈ segments ->
    seg_effect config segment = Ok (ELocated d od hd) ->
    is_nan (py_min od hd) = false.

(** ** A reference runtime for the examples

    [Ref.fromisoformat] follows the grammar that Python 3.7 to 3.10 document,
    [YYYY-MM-DD[*HH[:MM[:SS[.fff[fff]]]][+HH:MM[:SS[.ffffff]]]]]; later
    versions accept more.  [Ref.float_of_str] reads plain decimal literals of
    at most 15 digits, for which one correctly rounded division gives the
    float Python gives, and [nan], [inf] and [infinity].  The trigonometric
    functions are truncated series, accurate to a few units in the tenth digit
    on the arguments of the examples. *)

Module Ref.

(** Exactly [n] decimal digits at the head of [s]. *)
Fixpoint digits_n (n : nat) (s : string) (acc : Z) : option (Z * string) :=
  match n with
  | O => Some (acc, s)
  | S k =>
      match s with
      | String c r =>
          if PyStr.is_digit c then digits_n k r (10 * acc + PyStr.digit_val c) else None
      | EmptyString => None
      end
  end.

Definition expect (c : ascii) (s : string) : option string :=
  match s with
  | String c' r => if Ascii.eqb c c' then Some r else None
  | EmptyString => None
  end.

(** [.fff] or [.ffffff] up to the end of the string, or nothing. *)
Definition parse_fraction (s : string) : option Z :=
  match s with
  | EmptyString => Some 0
  | String "." r =>
      if (String.length r =? 3)%nat then
        match digits_n 3 r 0 with Some (v, _) => Some (v * 1000) | None => None end
      else if (String.length r =? 6)%nat then
        match digits_n 6 r 0 with Some (v, _) => Some v | None => None end
      else None
  | _ => None
  end.

(** [HH[:MM[:SS[.fff[fff]]]]] up to the end of the string. *)
Definition parse_hh_mm_ss_ff (s : string) : option (Z * Z * Z * Z) :=
  '(h, r) ← digits_n 2 s 0;
  match r with
  | EmptyString => Some (h, 0, 0, 0)
  | _ =>
      r ← expect ":" r;
      '(m, r) ← digits_n 2 r 0;
      match r with
      | EmptyString => Some (h, m, 0, 0)
      | _ =>
          r ← expect ":" r;
          '(sec, r) ← digits_n 2 r 0;
          us ← parse_fraction r;
          Some (h, m, sec, us)
      end
  end.

(** The position of the sign that starts the offset: the first [-] if there
    is one, the first [+] otherwise. *)
Fixpoint find_char (c : ascii) (s : string) : option nat :=
  match s with
  | EmptyString => None
  | String c' r => if Ascii.eqb c c' then Some O else S <$> find_char c r
  end.

Definition tz_pos (s : string) : option nat :=
  match find_char "-" s with
  | Some p => Some p
  | None => find_char "+" s
  end.

Definition parse_time_and_offset (tstr : string) : option (Z * Z * Z * Z * option Z) :=
  match tz_pos tstr with
  | None => tc ← parse_hh_mm_ss_ff tstr; Some (tc, None)
  | Some p =>
      let timestr := String.substring 0 p tstr in
      let sign := String.substring p 1 tstr in
      let tzstr := String.substring (S p) (String.length tstr - S p) tstr in
      tc ← parse_hh_mm_ss_ff timestr;
      if negb (bool_decide (String.length tzstr ∈ [5; 8; 15]%nat)) then None else
      '(zh, zm, zs, zus) ← parse_hh_mm_ss_ff tzstr;
      let mag := ((zh * 60 + zm) * 60 + zs) * 1000000 + zus in
      if 86400000000 <=? mag then None else
      Some (tc, Some (if String.eqb sign "-" then - mag else mag))
  end.

Definition valid_time (h m s us : Z) : bool :=
  (0 <=? h) && (h <=? 23) && (0 <=? m) && (m <=? 59)
  && (0 <=? s) && (s <=? 59) && (0 <=? us) && (us <=? 999999).

Definition fromisoformat_opt (s : string) : option datetime :=
  '(y, r) ← digits_n 4 s 0;
  r ← expect "-" r;
  '(mo, r) ← digits_n 2 r 0;
  r ← expect "-" r;
  '(d, r) ← digits_n 2 r 0;
  '(tc, off) ←
    match r with
    | EmptyString => Some (0, 0, 0, 0, None)
    | String _ tstr => parse_time_and_offset tstr
    end;
  let '(h, mi, sec, us) := tc in
  if Calendar.valid_date y mo d && valid_time h mi sec us
  then Some (mk_datetime (mk_date_raw y mo d) (mk_time h mi sec us) off)
  else None.

Definition fromisoformat (s : string) : pyres datetime :=
  of_option ValueError (fromisoformat_opt s).

(** Decimal digits, with their count. *)
Fixpoint digits_run (s : string) (acc : Z) (n : nat) : Z * nat * string :=
  match s with
  | String c r =>
      if PyStr.is_digit c then digits_run r (10 * acc + PyStr.digit_val c) (S n)
      else (acc, n, s)
  | EmptyString => (acc, n, s)
  end.

Definition float_of_Z (z : Z) : float := of_uint63 (Uint63.of_Z z).

Definition decimal_literal (s : string) : option float :=
  let '(ip, n1, r) := digits_run s 0 O in
  let '(v, n2, r) :=
    match r with
    | String "." r' => digits_run r' ip O
    | _ => (ip, O, r)
    end in
  if (0 <? n1 + n2)%nat && (n1 + n2 <=? 15)%nat && negb (str_truthy r)
  then Some (float_of_Z v / float_of_Z (10 ^ Z.of_nat n2))%float
  else None.

Definition unsigned_literal (s : string) : option float :=
  if String.eqb s "nan" then Some nan
  else if String.eqb s "inf" || String.eqb s "infinity" then Some infinity
  else decimal_literal s.

Definition float_of_str (s : string) : pyres float :=
  of_option ValueError
    match PyStr.strip s with
    | String "-" r => PrimFloat.opp <$> unsigned_literal r
    | String "+" r => unsigned_literal r
    | r => unsigned_literal r
    end.

Definition pi : float := 0x1.921fb54442d18p+1%float.

(** [x - x^3/3! + x^5/5! - ...], thirteen terms. *)
Fixpoint sin_series (k : nat) (n : float) (term acc x2 : float) : float :=
  match k with
  | O => acc
  | S k' =>
      let term' := (- term * x2 / ((n + 1) * (n + 2)))%float in
      sin_series k' (n + 2)%float term' (acc + term')%float x2
  end.

Definition sin (x : float) : float := sin_series 12 1 x x (x * x)%float.
Definition cos (x : float) : float := sin_series 12 0 1 1 (x * x)%float.

(** [t - t^3/3 + t^5/5 - ...], for a small [t]. *)
Fixpoint atan_series (k : nat) (n : float) (pw acc t2 : float) : float :=
  match k with
  | O => acc
  | S k' =>
      let pw' := (- pw * t2)%float in
      atan_series k' (n + 2)%float pw' (acc + pw' / (n + 2))%float t2
  end.

Definition atan_half (t : float) : float := (t / (1 + PrimFloat.sqrt (1 + t * t)))%float.

(** The arc tangent of [t] in [0, 1]: the argument is halved three times. *)
Definition atan_unit (t : float) : float :=
  let u := atan_half (atan_half (atan_half t)) in
  (8 * atan_series 14 1 u u (u * u))%float.

Definition atan_pos (t : float) : float :=
  if (t <=? 1)%float then atan_unit t else (pi / 2 - atan_unit (1 / t))%float.

Definition atan (t : float) : float :=
  if (t <? 0)%float then (- atan_pos (- t))%float else atan_pos t.

Definition atan2 (y x : float) : float :=
  if is_nan x || is_nan y then nan
  else if (0 <? x)%float then atan (y / x)
  else if (x <? 0)%float then
    (if (y <? 0)%float then atan (y / x) - pi else atan (y / x) + pi)%float
  else if (0 <? y)%float then (pi / 2)%float
  else if (y <? 0)%float then (- (pi / 2))%float
  else y.

Definition pow (x y : float) : float :=
  if (y =? 2)%float then (x * x)%float else nan.

(** The iteration order of the reference runtime: every key in slot 0, so a
    set is iterated in the order of [elements]. *)
Definition slot (s : string) : N := 0%N.

End Ref.

Definition ref_runtime : PyRuntime :=
  {| float_of_str := Ref.float_of_str;
     datetime_fromisoformat := Ref.fromisoformat;
     libm_sin := Ref.sin;
     libm_cos := Ref.cos;
     libm_atan2 := Ref.atan2;
     libm_pow := Ref.pow |}.

Definition ref_order : SetOrder := {| set_slot := Ref.slot |}.

(** ** Example documents and configurations *)

Module Example.

Definition weekdays : list string :=
  ["Monday"; "Tuesday"; "Wednesday"; "Thursday"; "Friday"].

(** The configuration that [main.py] builds from its defaults. *)
Definition config : Config :=
  {| calendar_year := Some 2025;
     working_hours := "9:00-18:00";
     days_of_week := weekdays;
     office_lat := 52.520008; office_lng := 13.404954;
     home_lat := 52.516275; home_lng := 13.377704;
     radius := 100 |}.

(** The configuration that [main_simple.py] builds from its defaults. *)
Definition simple_config : SimpleConfig :=
  {| s_calendar_year := Some 2025;
     s_working_hours := "9:00-18:00";
     s_days_of_week := weekdays;
     work_types := {[ "WORK"; "INFERRED_WORK" ]};
     home_types := {[ "HOME"; "INFERRED_HOME" ]} |}.

(** A visit segment with a coordinate string. *)
Definition visit_at (start_time latlng : string) : Segment :=
  {| visit := Some {| topCandidate :=
                        Some {| placeLocation := Some {| latLng := Some latlng |};
                                semanticType := None |} |};
     startTime := Some start_time;
     endTime := None |}.

(** A visit segment with a semantic tag. *)
Definition tagged (start_time tag : string) : Segment :=
  {| visit := Some {| topCandidate :=
                        Some {| placeLocation := None; semanticType := Some tag |} |};
     startTime := Some start_time;
     endTime := None |}.

Definition document (segments : list Segment) : Timeline :=
  {| semanticSegments := Some segments |}.

Definition at_office : string := String.append "52.520008" (String.append degree_sign
  (String.append ", 13.404954" degree_sign)).
Definition at_home : string := "52.516275, 13.377704".
Definition north_of_office : string := "52.53, 13.404954".
Definition in_paris : string := "48.8566, 2.3522".

(** Wednesday at the office and at home, Thursday at home, Friday a
    kilometre north of the office, Monday in Paris, and a Saturday. *)
Definition week : list Segment :=
  [ visit_at "2025-01-01T09:30:00.000+01:00" at_home;
    visit_at "2025-01-01T10:00:00.000+01:00" at_office;
    visit_at "2025-01-02T12:00:00Z" at_home;
    visit_at "2025-01-03T18:00:00.000+01:00" north_of_office;
    visit_at "2025-01-04T12:00:00.000+01:00" at_office;
    visit_at "2025-01-06T09:00:00.000+01:00" in_paris;
    visit_at "2025-01-07T20:00:00.000+01:00" at_office ].

Definition tagged_week : list Segment :=
  [ tagged "2025-01-01T09:30:00.000+01:00" "INFERRED_HOME";
    tagged "2025-01-01T10:00:00.000+01:00" "WORK";
    tagged "2025-01-02T12:00:00Z" "HOME";
    tagged "2025-01-03T18:00:00.000+01:00" "SEARCHED_ADDRESS";
    tagged "2025-01-04T12:00:00.000+01:00" "WORK";
    tagged "2025-01-07T20:00:00.000+01:00" "WORK" ].

Definition no_result : Result :=
  {| office := []; home := []; elsewhere := [];
     elsewhere_breakdown := breakdown_init; missing := [] |}.

Definition no_simple_result : SimpleResult :=
  {| s_office := []; s_home := []; s_elsewhere := []; s_missing := [] |}.

(** What the two classifiers return for the two weeks. *)
Definition week_result : Result :=
  Eval vm_compute in
    match @categorize_days ref_runtime ref_order (document week) config with
    | Ok r => r
    | Raise _ => no_result
    end.

Definition tagged_week_result : SimpleResult :=
  Eval vm_compute in
    match @categorize_days_simple ref_runtime ref_order (document tagged_week) simple_config with
    | Ok r => r
    | Raise _ => no_simple_result
    end.

(** Thursday and Friday a kilometre north of the office. *)
Definition two_local_days : list Segment :=
  [ visit_at "2025-01-02T10:00:00Z" north_of_office;
    visit_at "2025-01-03T10:00:00Z" north_of_office ].

(** Thursday with a coordinate string that [float] reads as two NaNs, and
    with a visit a kilometre north of the office. *)
Definition nan_visit : Segment := visit_at "2025-01-02T10:00:00Z" "nan, nan".
Definition near_visit : Segment := visit_at "2025-01-02T11:00:00Z" north_of_office.

(** A run in which the key of January 2 hashes to a later slot than the
    other keys. *)
Definition late_first : SetOrder :=
  {| set_slot := fun k => if String.eqb k "2025-01-02" then 1%N else 0%N |}.

Definition two_local_days_result : Result :=
  Eval vm_compute in
    match @categorize_days ref_runtime ref_order (document two_local_days) config with
    | Ok r => r
    | Raise _ => no_result
    end.

(** The day keys of the dates of 2025 from Monday to Friday. *)
Definition expected_2025 : gset string :=
  working_day_keys weekdays (year_dates 2025).

End Example.

(** * Properties *)

Example replace_Z : PyStr.replace "Z" "+00:00" "2025-01-01T10:00:00Z" = "2025-01-01T10:00:00+00:00".
Proof. reflexivity. Qed.

Example split_window : PyStr.split "-" "9:00-18:00" = ["9:00"; "18:00"].
Proof. reflexivity. Qed.

Example split_empty : PyStr.split "," "" = [""].
Proof. reflexivity. Qed.

Example strip_ex : PyStr.strip "  13.40 " = "13.40".
Proof. reflexivity. Qed.

Example int_ex : PyStr.int " 09" = Ok 9 /\ PyStr.int "1_8" = Ok 18 /\ PyStr.int "" = Raise ValueError
  /\ PyStr.int "-7" = Ok (-7) /\ PyStr.int "1__8" = Raise ValueError.
Proof. repeat split. Qed.

Example format_ex : PyStr.format_0d 2 9 = "09" /\ PyStr.format_0d 2 18 = "18"
  /\ PyStr.format_0d 2 123 = "123" /\ PyStr.format_0d 2 (-5) = "-5" /\ PyStr.format_0d 4 2025 = "2025"
  /\ PyStr.format_0d 2 0 = "00".
Proof. repeat split. Qed.

Example ref_iso :
  Ref.fromisoformat "2025-01-01T10:00:00.000+01:00"
  = Ok (mk_datetime (mk_date_raw 2025 1 1) (mk_time 10 0 0 0) (Some 3600000000)).
Proof. reflexivity. Qed.

Example ref_float : Ref.float_of_str "52.52" = Ok 52.52%float /\ Ref.float_of_str " 13.40" = Ok 13.4%float.
Proof. split; reflexivity. Qed.

(** ** The order of strings and [sorted] *)

Lemma ascii_compare_N (a b : ascii) :
  Ascii.compare a b = (N_of_ascii a ?= N_of_ascii b)%N.
Proof. reflexivity. Qed.

Lemma str_leb_trans (a b c : string) :
  String.leb a b = true -> String.leb b c = true -> String.leb a c = true.
Proof.
  unfold String.leb. revert b c.
  induction a as [|x a IH]; intros [|y b] [|z c]; simpl; try easy.
  rewrite !ascii_compare_N.
  destruct (N.compare_spec (N_of_ascii x) (N_of_ascii y)) as [E1|L1|G1];
    destruct (N.compare_spec (N_of_ascii y) (N_of_ascii z)) as [E2|L2|G2];
    destruct (N.compare_spec (N_of_ascii x) (N_of_ascii z)) as [E3|L3|G3];
    try easy; try lia.
  apply IH.
Qed.

#[global] Instance str_le_total : Total str_le.
Proof. intros a b. apply String.leb_total. Qed.

#[global] Instance str_le_trans : Transitive str_le.
Proof. intros a b c. apply str_leb_trans. Qed.

#[global] Instance str_le_antisym : AntiSymm (=) str_le.
Proof. intros a b. apply String.leb_antisym. Qed.

Section sorted_facts.
Context `{SetOrder}.

Lemma set_iter_perm (s : gset string) : set_iter s ≡ₚ elements s.
Proof. apply merge_sort_Permutation. Qed.

Lemma elem_of_set_iter (s : gset string) (x : string) : x ∈ set_iter s <-> x ∈ s.
Proof. rewrite set_iter_perm. apply elem_of_elements. Qed.

Lemma NoDup_set_iter (s : gset string) : NoDup (set_iter s).
Proof. rewrite set_iter_perm. apply NoDup_elements. Qed.

Lemma sorted_perm (s : gset string) : sorted s ≡ₚ elements s.
Proof. unfold sorted. rewrite merge_sort_Permutation. apply set_iter_perm. Qed.

Lemma elem_of_sorted (s : gset string) (x : string) : x ∈ sorted s <-> x ∈ s.
Proof. rewrite sorted_perm. apply elem_of_elements. Qed.

Lemma NoDup_sorted (s : gset string) : NoDup (sorted s).
Proof. rewrite sorted_perm. apply NoDup_elements. Qed.

Lemma Sorted_sorted (s : gset string) : Sorted str_le (sorted s).
Proof. apply (Sorted_merge_sort str_le). Qed.

End sorted_facts.

(* [sorted] does not depend on the iteration order of the set. *)
Lemma sorted_order_irrelevant (R1 R2 : SetOrder) (s : gset string) :
  @sorted R1 s = @sorted R2 s.
Proof.
  apply (Sorted_unique str_le).
  - apply Sorted_sorted.
  - apply Sorted_sorted.
  - rewrite !sorted_perm. reflexivity.
Qed.

(** * C9: the working days of a year *)

Lemma month_days_chain (leap : bool) : is_chain leap (month_days leap) = true.
Proof. destruct leap; vm_compute; reflexivity. Qed.

Lemma month_days_length (leap : bool) :
  length (month_days leap) = if leap then 366%nat else 365%nat.
Proof. destruct leap; vm_compute; reflexivity. Qed.

Lemma month_days_first (leap : bool) : exists rest, month_days leap = (1, 1) :: rest.
Proof. destruct leap; eexists; vm_compute; reflexivity. Qed.

Lemma month_length_bounds (leap : bool) (m : Z) : 28 <= Calendar.month_length leap m <= 31.
Proof.
  unfold Calendar.month_length.
  destruct (m =? 2); [destruct leap; lia|].
  destruct (_ || _); lia.
Qed.

Lemma elem_of_month_days (leap : bool) (m d : Z) :
  (m, d) ∈ month_days leap <-> 1 <= m <= 12 /\ 1 <= d <= Calendar.month_length leap m.
Proof.
  unfold month_days. rewrite list_elem_of_bind. split.
  - intros (m' & Hd & Hm). apply elem_of_seqZ in Hm.
    apply list_elem_of_bind in Hd as (d' & Hmd & Hd). apply elem_of_seqZ in Hd.
    apply list_elem_of_singleton in Hmd. injection Hmd as -> ->. lia.
  - intros [Hm Hd]. exists m. split; [|apply elem_of_seqZ; lia].
    apply list_elem_of_bind. exists d. split; [apply list_elem_of_singleton; reflexivity|].
    apply elem_of_seqZ. lia.
Qed.





Lemma working_day_keys_cons (dow : list string) (d : date) (l : list date) :
  working_day_keys dow (d :: l)
  = (if in_list (Calendar.strftime_A d) dow then {[ Calendar.strftime_Ymd d ]} else ∅)
    ∪ working_day_keys dow l.
Proof.
  unfold working_day_keys, in_list. rewrite filter_cons.
  destruct (decide (Calendar.strftime_A d ∈ dow)) as [Hin|Hin].
  - rewrite bool_decide_true by exact Hin. reflexivity.
  - rewrite bool_decide_false by exact Hin. set_solver.
Qed.

Lemma date_leb_in_year (y m d : Z) :
  1 <= m <= 12 -> d <= 31 ->
  Calendar.date_leb (mk_date_raw y m d) (mk_date_raw y 12 31) = true.
Proof.
  intros Hm Hd. unfold Calendar.date_leb; cbn [d_year d_month d_day].
  rewrite Z.ltb_irrefl, Z.eqb_refl. cbn [orb andb].
  destruct (Z.ltb_spec m 12); [reflexivity|].
  assert (m = 12) as -> by lia. cbn [orb andb]. rewrite Z.eqb_refl.
  apply Z.leb_le. exact Hd.
Qed.

Lemma date_leb_next_year (y : Z) :
  Calendar.date_leb (mk_date_raw (y + 1) 1 1) (mk_date_raw y 12 31) = false.
Proof.
  unfold Calendar.date_leb; simpl.
  destruct (Z.ltb_spec (y + 1) y); [lia|].
  destruct (Z.eqb_spec (y + 1) y); [lia|]. reflexivity.
Qed.

Lemma next_day_of_month_day (y : Z) (md : Z * Z) :
  Calendar.next_day (mk_date_raw y md.1 md.2)
  = match next_month_day (Calendar.is_leap y) md with
    | Some md' => mk_date_raw y md'.1 md'.2
    | None => mk_date_raw (y + 1) 1 1
    end.
Proof.
  unfold Calendar.next_day, next_month_day, Calendar.days_in_month; simpl.
  destruct (_ <? Calendar.month_length _ _); [reflexivity|].
  destruct (md.1 <? 12); reflexivity.
Qed.

Lemma bind_Ok {A B} (x : A) (f : A -> pyres B) : (Ok x ≫= f) = f x.
Proof. reflexivity. Qed.

Lemma working_days_loop_step (fuel : nat) (dow : list string) (cur end_date : date)
    (acc : gset string) :
  working_days_loop (S fuel) dow cur end_date acc
  = if Calendar.date_leb cur end_date
    then cur' ← Calendar.add_one_day cur;
         working_days_loop fuel dow cur' end_date
           (if in_list (Calendar.strftime_A cur) dow
            then acc ∪ {[ Calendar.strftime_Ymd cur ]} else acc)
    else Ok acc.
Proof. reflexivity. Qed.

Lemma add_one_day_in_year (y : Z) (md md' : Z * Z) :
  y <= 9999 ->
  next_month_day (Calendar.is_leap y) md = Some md' ->
  Calendar.add_one_day (mk_date_raw y md.1 md.2) = Ok (mk_date_raw y md'.1 md'.2).
Proof.
  intros Hy Hnext. unfold Calendar.add_one_day.
  rewrite next_day_of_month_day, Hnext. cbn [d_year].
  destruct (Z.leb_spec y 9999); [reflexivity|lia].
Qed.

Lemma add_one_day_last (y : Z) (md : Z * Z) :
  y <= 9998 ->
  next_month_day (Calendar.is_leap y) md = None ->
  Calendar.add_one_day (mk_date_raw y md.1 md.2) = Ok (mk_date_raw (y + 1) 1 1).
Proof.
  intros Hy Hnext. unfold Calendar.add_one_day.
  rewrite next_day_of_month_day, Hnext. cbn [d_year].
  destruct (Z.leb_spec (y + 1) 9999); [reflexivity|lia].
Qed.

Lemma working_days_loop_chain (y : Z) (dow : list string) :
  1 <= y <= 9998 ->
  forall (l : list (Z * Z)) (md : Z * Z) (acc : gset string) (fuel : nat),
    is_chain (Calendar.is_leap y) (md :: l) = true ->
    Forall (fun md => 1 <= md.1 <= 12 /\ md.2 <= 31) (md :: l) ->
    (length (md :: l) < fuel)%nat ->
    working_days_loop fuel dow (mk_date_raw y md.1 md.2) (mk_date_raw y 12 31) acc
    = Ok (acc ∪ working_day_keys dow
                  ((fun md => mk_date_raw y md.1 md.2) <$> (md :: l))).
Proof.
  intros Hy l. induction l as [|md' l IH]; intros md acc fuel Hchain Hall Hfuel.
  - destruct fuel as [|[|fuel]]; cbn [length] in Hfuel; try lia.
    apply Forall_cons in Hall as [[Hm Hd] _].
    cbn [is_chain] in Hchain. apply bool_decide_eq_true in Hchain.
    rewrite working_days_loop_step, date_leb_in_year by assumption.
    rewrite (add_one_day_last y md) by (lia || assumption).
    rewrite bind_Ok, working_days_loop_step, date_leb_next_year.
    rewrite fmap_cons, working_day_keys_cons. f_equal.
    unfold working_day_keys. rewrite fmap_nil, filter_nil, fmap_nil.
    destruct (in_list _ _); set_solver.
  - destruct fuel as [|fuel]; cbn [length] in Hfuel; try lia.
    apply Forall_cons in Hall as [[Hm Hd] Hrest].
    cbn [is_chain] in Hchain. apply andb_true_iff in Hchain as [Hnext Hchain].
    apply bool_decide_eq_true in Hnext.
    rewrite working_days_loop_step, date_leb_in_year by assumption.
    rewrite (add_one_day_in_year y md md') by (lia || assumption).
    rewrite bind_Ok.
    rewrite (IH md' _ fuel Hchain Hrest) by (cbn [length]; lia).
    change ((fun md => mk_date_raw y md.1 md.2) <$> md :: md' :: l)
      with (mk_date_raw y md.1 md.2 :: ((fun md => mk_date_raw y md.1 md.2) <$> md' :: l)).
    rewrite (working_day_keys_cons _ (mk_date_raw y md.1 md.2)).
    f_equal. destruct (in_list _ _); set_solver.
Qed.

Lemma get_all_working_days_in_year_spec (year : Z) (days_of_week : list string) :
  1 <= year <= 9998 ->
  get_all_working_days_in_year year days_of_week
  = Ok (working_day_keys days_of_week (year_dates year)).
Proof.
  intros Hy. unfold get_all_working_days_in_year, Calendar.mk_date.
  assert (Calendar.valid_date year 1 1 = true) as ->.
  { unfold Calendar.valid_date, Calendar.days_in_month.
    pose proof (month_length_bounds (Calendar.is_leap year) 1).
    repeat (apply andb_true_intro; split); apply Z.leb_le; lia. }
  assert (Calendar.valid_date year 12 31 = true) as ->.
  { unfold Calendar.valid_date. 
    repeat (apply andb_true_intro; split); try (apply Z.leb_le; lia). reflexivity. }
  rewrite !bind_Ok.
  change (mk_date_raw year 1 1) with (mk_date_raw year (1, 1).1 (1, 1).2).
  destruct (month_days_first (Calendar.is_leap year)) as [rest Hmd].
  unfold year_dates. rewrite Hmd.
  rewrite (working_days_loop_chain year days_of_week Hy rest (1, 1) ∅ 400).
  - f_equal. set_solver.
  - rewrite <- Hmd. apply month_days_chain.
  - rewrite <- Hmd. apply Forall_forall. intros [m d] Hin.
    apply elem_of_month_days in Hin. simpl.
    pose proof (month_length_bounds (Calendar.is_leap year) m). lia.
  - rewrite <- Hmd, month_days_length. destruct (Calendar.is_leap year); lia.
Qed.





(** ** The loops, segment by segment *)

Section loops.
Context {RT : PyRuntime}.

Lemma pass_step_effect (config : Config) (st : Pass) (segment : Segment) :
  pass_step config st segment
  = e ← seg_effect config segment; Ok (apply_effect (radius config) st e).
Proof.
  unfold pass_step, seg_effect.
  destruct (visit segment) as [v|]; [|done]. cbv zeta.
  destruct (negb (str_truthy _)); [done|].
  destruct (year_skips _ _); [done|].
  destruct (date_str_of _) as [day|]; [|done].
  destruct (negb (is_working_day _ _)); [done|].
  destruct (negb (is_within_working_hours _ _)); [done|].
  destruct (negb (str_truthy (latlng_of v))); [done|].
  destruct (parse_latlng _) as [[lat|] [lng|]]; try done.
  destruct (haversine_distance lat lng (office_lat config) _) as [od|]; simpl; [|done].
  destruct (haversine_distance lat lng (home_lat config) _) as [hd|]; simpl; [|done].
  destruct (od <=? radius config)%float; [done|].
  destruct (hd <=? radius config)%float; done.
Qed.

Lemma pass_loop_effects (config : Config) (segments : list Segment) (st : Pass) :
  pass_loop config st segments
  = es ← seg_effects config segments;
    Ok (fold_left (apply_effect (radius config)) es st).
Proof.
  revert st. induction segments as [|segment rest IH]; intros st; simpl; [done|].
  rewrite pass_step_effect.
  destruct (seg_effect config segment) as [e|]; simpl; [|done].
  rewrite IH. destruct (seg_effects config rest); done.
Qed.

End loops.

Lemma apply_effects_sets (radius : float) (es : list Effect) (st : Pass) :
  let st' := fold_left (apply_effect radius) es st in
  office_days st' = office_days st ∪ list_to_set (omap (eff_office radius) es)
  /\ home_days st' = home_days st ∪ list_to_set (omap (eff_home radius) es)
  /\ days_with_data st' = days_with_data st ∪ list_to_set (omap eff_data es)
  /\ days_with_working_hour_visits st'
     = days_with_working_hour_visits st ∪ list_to_set (omap eff_visit es)
  /\ day_min_distances st' = fold_left track_effect es (day_min_distances st).
Proof.
  revert st. induction es as [|e es IH]; intros st; simpl.
  { repeat split; set_solver. }
  destruct (IH (apply_effect radius st e)) as (Ho & Hh & Hd & Hv & Hm).
  rewrite Ho, Hh, Hd, Hv, Hm. clear.
  destruct e as [| | |d|d|d od hd]; simpl; try (repeat split; set_solver).
  unfold track_effect; simpl.
  destruct (od <=? radius)%float; [|destruct (hd <=? radius)%float];
    simpl; repeat split; set_solver.
Qed.

Section simple_loops.
Context {RT : PyRuntime}.

Lemma simple_step_effect (config : SimpleConfig) (st : SimplePass) (segment : Segment) :
  simple_step config st segment = s_apply_effect config st (simple_effect config segment).
Proof.
  unfold simple_step, simple_effect.
  destruct (visit segment) as [v|]; [|done]. cbv zeta.
  destruct (negb (str_truthy _)); [done|].
  destruct (year_skips _ _); [done|].
  destruct (date_str_of _) as [day|]; [|done].
  destruct (negb (is_working_day _ _)); [done|].
  destruct (negb (is_within_working_hours _ _)); done.
Qed.

Lemma simple_loop_effects (config : SimpleConfig) (segments : list Segment) (st : SimplePass) :
  fold_left (simple_step config) segments st
  = fold_left (s_apply_effect config) (simple_effect config <$> segments) st.
Proof.
  revert st. induction segments as [|segment rest IH]; intros st; simpl; [done|].
  rewrite simple_step_effect. apply IH.
Qed.

End simple_loops.

Lemma s_apply_effects_sets (config : SimpleConfig) (es : list SimpleEffect) (st : SimplePass) :
  let st' := fold_left (s_apply_effect config) es st in
  s_office_days st' = s_office_days st ∪ list_to_set (omap (seff_office config) es)
  /\ s_home_days st' = s_home_days st ∪ list_to_set (omap (seff_home config) es)
  /\ s_days_with_data st' = s_days_with_data st ∪ list_to_set (omap seff_data es).
Proof.
  revert st. induction es as [|e es IH]; intros st; simpl.
  { repeat split; set_solver. }
  destruct (IH (s_apply_effect config st e)) as (Ho & Hh & Hd).
  rewrite Ho, Hh, Hd. clear.
  destruct e as [| | |d|d tag]; simpl; try (repeat split; set_solver).
  destruct (str_truthy tag); simpl; [|repeat split; set_solver].
  destruct (bool_decide (tag ∈ work_types config)); simpl; [repeat split; set_solver|].
  destruct (bool_decide (tag ∈ home_types config)); simpl; repeat split; set_solver.
Qed.

(** A mark of one kind is a mark of the wider kinds. *)
Lemma eff_office_visit (radius : float) (e : Effect) (d : string) :
  eff_office radius e = Some d -> eff_visit e = Some d.
Proof. destruct e; simpl; try done. destruct (_ <=? _)%float; congruence. Qed.

Lemma eff_home_visit (radius : float) (e : Effect) (d : string) :
  eff_home radius e = Some d -> eff_visit e = Some d.
Proof.
  destruct e; simpl; try done.
  destruct (_ <=? _)%float; [done|]. destruct (_ <=? _)%float; congruence.
Qed.

Lemma eff_visit_data (e : Effect) (d : string) : eff_visit e = Some d -> eff_data e = Some d.
Proof. destruct e; simpl; congruence. Qed.

Lemma seff_office_data (config : SimpleConfig) (e : SimpleEffect) (d : string) :
  seff_office config e = Some d -> seff_data e = Some d.
Proof. destruct e; simpl; try done. destruct (_ && _); congruence. Qed.

Lemma seff_home_data (config : SimpleConfig) (e : SimpleEffect) (d : string) :
  seff_home config e = Some d -> seff_data e = Some d.
Proof. destruct e; simpl; try done. destruct (_ && _); congruence. Qed.

Lemma elem_of_marks_iff {A} (f : A -> option string) (es : list A) (d : string) :
  d ∈ marks f es <-> exists e, e ∈ es /\ f e = Some d.
Proof. unfold marks. rewrite elem_of_list_to_set, list_elem_of_omap. reflexivity. Qed.

Lemma elem_of_marks {A} (f g : A -> option string) (es : list A) (d : string) :
  (forall e, f e = Some d -> g e = Some d) -> d ∈ marks f es -> d ∈ marks g es.
Proof.
  intros Hfg. rewrite !elem_of_marks_iff. intros (e & He & Hf). exists e. auto.
Qed.

(** ** The result of [categorize_days] in terms of the segments' effects *)

Section results.
Context {RT : PyRuntime} {SO : SetOrder}.

Lemma sorted_empty : sorted ∅ = [].
Proof.
  apply Permutation_nil_r. rewrite sorted_perm, elements_empty. reflexivity.
Qed.

Lemma expected_days_no_year (cy : option Z) (dow : list string) :
  year_truthy cy = false -> expected_days cy dow = Ok ∅.
Proof. unfold expected_days. intros ->. reflexivity. Qed.

Lemma expected_days_year (cy : option Z) (dow : list string) :
  year_truthy cy = true ->
  exists y, cy = Some y /\ y <> 0 /\ expected_days cy dow = get_all_working_days_in_year y dow.
Proof.
  unfold expected_days. destruct cy as [y|]; simpl; [|done].
  intros Hy. rewrite Hy. exists y. repeat split. intros ->. done.
Qed.

Lemma categorize_days_inv (data : Timeline) (config : Config) (r : Result) :
  categorize_days data config = Ok r ->
  exists all es,
    expected_days (calendar_year config) (days_of_week config) = Ok all
    /\ seg_effects config (get_or (semanticSegments data) []) = Ok es
    /\ r = aggregate all (calendar_year config)
             (fold_left (apply_effect (radius config)) es pass_init).
Proof.
  unfold categorize_days. cbv zeta.
  destruct (expected_days _ _) as [all|]; simpl; [|done].
  rewrite pass_loop_effects.
  destruct (seg_effects _ _) as [es|]; simpl; [|done].
  intros [= <-]. eauto.
Qed.

Lemma categorize_days_simple_inv (data : Timeline) (config : SimpleConfig) (r : SimpleResult) :
  categorize_days_simple data config = Ok r ->
  exists all,
    expected_days (s_calendar_year config) (s_days_of_week config) = Ok all
    /\ r = simple_aggregate all (s_calendar_year config)
             (fold_left (s_apply_effect config)
                (simple_effect config <$> get_or (semanticSegments data) []) simple_init).
Proof.
  unfold categorize_days_simple. cbv zeta.
  destruct (expected_days _ _) as [all|]; simpl; [|done].
  rewrite simple_loop_effects. intros [= <-]. eauto.
Qed.

(** The working sets at the end of the loop are the marks of the effects. *)
Lemma pass_sets (radius : float) (es : list Effect) :
  let st := fold_left (apply_effect radius) es pass_init in
  office_days st = marks (eff_office radius) es
  /\ home_days st = marks (eff_home radius) es
  /\ days_with_data st = marks eff_data es
  /\ days_with_working_hour_visits st = marks eff_visit es
  /\ day_min_distances st = fold_left track_effect es ∅.
Proof.
  destruct (apply_effects_sets radius es pass_init) as (Ho & Hh & Hd & Hv & Hm).
  cbv zeta. rewrite Ho, Hh, Hd, Hv, Hm. unfold marks. simpl.
  repeat split; set_solver.
Qed.

Lemma simple_pass_sets (config : SimpleConfig) (es : list SimpleEffect) :
  let st := fold_left (s_apply_effect config) es simple_init in
  s_office_days st = marks (seff_office config) es
  /\ s_home_days st = marks (seff_home config) es
  /\ s_days_with_data st = marks seff_data es.
Proof.
  destruct (s_apply_effects_sets config es simple_init) as (Ho & Hh & Hd).
  cbv zeta. rewrite Ho, Hh, Hd. unfold marks. simpl.
  repeat split; set_solver.
Qed.

End results.

Example week_result_lists :
  office Example.week_result = ["2025-01-01"]
  /\ home Example.week_result = ["2025-01-02"]
  /\ elsewhere Example.week_result = ["2025-01-03"; "2025-01-06"]
  /\ local (elsewhere_breakdown Example.week_result) = ["2025-01-03"]
  /\ national (elsewhere_breakdown Example.week_result) = []
  /\ international (elsewhere_breakdown Example.week_result) = ["2025-01-06"]
  /\ length (missing Example.week_result) = 257%nat.
Proof. repeat split. Qed.

Example tagged_week_result_lists :
  s_office Example.tagged_week_result = ["2025-01-01"]
  /\ s_home Example.tagged_week_result = ["2025-01-02"]
  /\ s_elsewhere Example.tagged_week_result = ["2025-01-03"; "2025-01-07"]
  /\ length (s_missing Example.tagged_week_result) = 257%nat.
Proof. repeat split. Qed.

(** ** Membership in the returned lists *)

Section membership.
Context {RT : PyRuntime} {SO : SetOrder}.

Lemma aggregate_members (all : gset string) (cy : option Z) (radius : float)
    (es : list Effect) (d : string) :
  let r := aggregate all cy (fold_left (apply_effect radius) es pass_init) in
  (d ∈ office r <-> d ∈ marks (eff_office radius) es)
  /\ (d ∈ home r <-> d ∈ marks (eff_home radius) es /\ d ∉ marks (eff_office radius) es)
  /\ (d ∈ elsewhere r <->
      (d ∈ marks eff_visit es /\ ((d ∉ marks (eff_office radius) es)
       /\ d ∉ marks (eff_home radius) es)))
  /\ (d ∈ missing r <-> year_truthy cy = true /\ d ∈ all /\ d ∉ marks eff_visit es).
Proof.
  destruct (pass_sets radius es) as (Ho & Hh & _ & Hv & _).
  cbv zeta. unfold aggregate. simpl.
  rewrite !elem_of_sorted, Ho, Hh, Hv.
  split; [reflexivity|].
  split; [apply elem_of_difference|].
  split.
  - rewrite !elem_of_difference.
    destruct (decide (d ∈ marks (eff_office radius) es)); tauto.
  - destruct (year_truthy cy).
    + rewrite elem_of_difference. tauto.
    + rewrite elem_of_empty. split; [tauto|]. intros [? _]. discriminate.
Qed.

Lemma simple_aggregate_members (all : gset string) (cy : option Z) (config : SimpleConfig)
    (es : list SimpleEffect) (d : string) :
  let r := simple_aggregate all cy (fold_left (s_apply_effect config) es simple_init) in
  (d ∈ s_office r <-> d ∈ marks (seff_office config) es)
  /\ (d ∈ s_home r <-> d ∈ marks (seff_home config) es /\ d ∉ marks (seff_office config) es)
  /\ (d ∈ s_elsewhere r <->
      (d ∈ marks seff_data es /\ ((d ∉ marks (seff_office config) es)
       /\ d ∉ marks (seff_home config) es)))
  /\ (d ∈ s_missing r <-> year_truthy cy = true /\ d ∈ all /\ d ∉ marks seff_data es).
Proof.
  destruct (simple_pass_sets config es) as (Ho & Hh & Hd).
  cbv zeta. unfold simple_aggregate. simpl.
  rewrite !elem_of_sorted, Ho, Hh, Hd.
  split; [reflexivity|].
  split; [apply elem_of_difference|].
  split.
  - rewrite !elem_of_difference.
    destruct (decide (d ∈ marks (seff_office config) es)); tauto.
  - destruct (year_truthy cy).
    + rewrite elem_of_difference. tauto.
    + rewrite elem_of_empty. split; [tauto|]. intros [? _]. discriminate.
Qed.

End membership.

(** * C1: office, home and elsewhere are pairwise disjoint *)

(** C1.  Whatever the document and the configuration, in coordinate mode
    ([categorize_days]) and in tag mode ([categorize_days_simple]), no day key
    of a returned result is in two of the lists [office], [home] and
    [elsewhere]. *)
Theorem result_lists_disjoint `{RT : PyRuntime} `{SO : SetOrder} :
  (forall data config r,
      categorize_days data config = Ok r ->
      pairwise_disjoint (office r) (home r) (elsewhere r))
  /\ (forall data config r,
         categorize_days_simple data config = Ok r ->
         pairwise_disjoint (s_office r) (s_home r) (s_elsewhere r)).
Proof.
  split; intros data config r Hr d.
  - apply categorize_days_inv in Hr as (all & es & _ & _ & ->).
    destruct (aggregate_members all (calendar_year config) (radius config) es d)
      as (Ho & Hh & He & _).
    rewrite Ho, Hh, He. tauto.
  - apply categorize_days_simple_inv in Hr as (all & _ & ->).
    destruct (simple_aggregate_members all (s_calendar_year config) config
                (simple_effect config <$> get_or (semanticSegments data) []) d)
      as (Ho & Hh & He & _).
    rewrite Ho, Hh, He. tauto.
Qed.

Lemma result_lists_disjoint_witness :
  (@categorize_days ref_runtime ref_order (Example.document Example.week) Example.config
   = Ok Example.week_result
   /\ pairwise_disjoint ["2025-01-01"] ["2025-01-02"] ["2025-01-03"; "2025-01-06"])
  /\ (@categorize_days_simple ref_runtime ref_order
        (Example.document Example.tagged_week) Example.simple_config
      = Ok Example.tagged_week_result
      /\ pairwise_disjoint ["2025-01-01"] ["2025-01-02"] ["2025-01-03"; "2025-01-07"]).
Proof.
  split; (split; [vm_compute; reflexivity|]).
  - apply (proj1 (@result_lists_disjoint ref_runtime ref_order)
             (Example.document Example.week) Example.config Example.week_result).
    vm_compute; reflexivity.
  - apply (proj2 (@result_lists_disjoint ref_runtime ref_order)
             (Example.document Example.tagged_week) Example.simple_config
             Example.tagged_week_result).
    vm_compute; reflexivity.
Defined.

(** * C2: the aggregation after the pass *)

(** C2.  When [categorize_days] returns, the loop has ended with working sets
    [st] that are the marks of the segments' effects, and the returned lists
    are [office = office_days], [home = home_days - office_days],
    [elsewhere = days_with_working_hour_visits - office_days - home] and
    [missing = expected - days_with_working_hour_visits], where [expected] is
    what [get_all_working_days_in_year] returns for the configured year, and
    [missing] is empty when no year is configured.  [categorize_days_simple]
    does the same with [days_with_data], the days that have a visit on a
    working day at any hour, in the place of [days_with_working_hour_visits]. *)
Theorem aggregation_formulas `{RT : PyRuntime} `{SO : SetOrder} :
  (forall data config r,
      categorize_days data config = Ok r ->
      exists st es expected,
        pass_loop config pass_init (get_or (semanticSegments data) []) = Ok st
        /\ seg_effects config (get_or (semanticSegments data) []) = Ok es
        /\ office_days st = marks (eff_office (radius config)) es
        /\ home_days st = marks (eff_home (radius config)) es
        /\ days_with_working_hour_visits st = marks eff_visit es
        /\ office r = sorted (office_days st)
        /\ home r = sorted (home_days st ∖ office_days st)
        /\ elsewhere r
           = sorted (days_with_working_hour_visits st ∖ office_days st
                     ∖ (home_days st ∖ office_days st))
        /\ (forall y, calendar_year config = Some y -> y <> 0 ->
            get_all_working_days_in_year y (days_of_week config) = Ok expected
            /\ missing r = sorted (expected ∖ days_with_working_hour_visits st))
        /\ (year_truthy (calendar_year config) = false -> missing r = []))
  /\ (forall data config r,
         categorize_days_simple data config = Ok r ->
         exists st expected,
           st = fold_left (simple_step config) (get_or (semanticSegments data) []) simple_init
           /\ s_office_days st
              = marks (seff_office config) (simple_effect config <$> get_or (semanticSegments data) [])
           /\ s_home_days st
              = marks (seff_home config) (simple_effect config <$> get_or (semanticSegments data) [])
           /\ s_days_with_data st
              = marks seff_data (simple_effect config <$> get_or (semanticSegments data) [])
           /\ s_office r = sorted (s_office_days st)
           /\ s_home r = sorted (s_home_days st ∖ s_office_days st)
           /\ s_elsewhere r
              = sorted (s_days_with_data st ∖ s_office_days st
                        ∖ (s_home_days st ∖ s_office_days st))
           /\ (forall y, s_calendar_year config = Some y -> y <> 0 ->
               get_all_working_days_in_year y (s_days_of_week config) = Ok expected
               /\ s_missing r = sorted (expected ∖ s_days_with_data st))
           /\ (year_truthy (s_calendar_year config) = false -> s_missing r = [])).
Proof.
  split; intros data config r Hr.
  - apply categorize_days_inv in Hr as (all & es & Hall & Hes & ->).
    destruct (pass_sets (radius config) es) as (Ho & Hh & _ & Hv & _).
    exists (fold_left (apply_effect (radius config)) es pass_init), es, all.
    split; [rewrite pass_loop_effects, Hes; reflexivity|].
    do 4 (split; [assumption|]).
    do 3 (split; [reflexivity|]).
    split.
    + intros y Hy Hy0. unfold expected_days in Hall. unfold aggregate; simpl.
      rewrite Hy in *. simpl in *.
      apply Z.eqb_neq in Hy0. rewrite Hy0 in *. simpl in *. auto.
    + intros Hy. unfold aggregate; simpl. rewrite Hy. apply sorted_empty.
  - apply categorize_days_simple_inv in Hr as (all & Hall & ->).
    set (es := simple_effect config <$> get_or (semanticSegments data) []).
    destruct (simple_pass_sets config es) as (Ho & Hh & Hd).
    exists (fold_left (s_apply_effect config) es simple_init), all.
    split; [symmetry; apply simple_loop_effects|].
    do 3 (split; [assumption|]).
    do 3 (split; [reflexivity|]).
    split.
    + intros y Hy Hy0. unfold expected_days in Hall. unfold simple_aggregate; simpl.
      rewrite Hy in *. simpl in *.
      apply Z.eqb_neq in Hy0. rewrite Hy0 in *. simpl in *. auto.
    + intros Hy. unfold simple_aggregate; simpl. rewrite Hy. apply sorted_empty.
Qed.

Lemma aggregation_formulas_witness :
  (exists st es expected,
      @pass_loop ref_runtime Example.config pass_init Example.week = Ok st
      /\ @seg_effects ref_runtime Example.config Example.week = Ok es
      /\ home Example.week_result = @sorted ref_order (home_days st ∖ office_days st)
      /\ get_all_working_days_in_year 2025 Example.weekdays = Ok expected
      /\ missing Example.week_result
         = @sorted ref_order (expected ∖ days_with_working_hour_visits st))
  /\ (exists st expected,
         st = fold_left (@simple_step ref_runtime Example.simple_config)
                Example.tagged_week simple_init
         /\ s_elsewhere Example.tagged_week_result
            = @sorted ref_order (s_days_with_data st ∖ s_office_days st
                                 ∖ (s_home_days st ∖ s_office_days st))
         /\ get_all_working_days_in_year 2025 Example.weekdays = Ok expected
         /\ s_missing Example.tagged_week_result
            = @sorted ref_order (expected ∖ s_days_with_data st)).
Proof.
  split.
  - destruct (proj1 (@aggregation_formulas ref_runtime ref_order)
                (Example.document Example.week) Example.config Example.week_result)
      as (st & es & expected & Hst & Hes & _ & _ & _ & _ & Hh & _ & Hm & _).
    { vm_compute; reflexivity. }
    destruct (Hm 2025 eq_refl) as [Hx Hmiss]; [lia|].
    exists st, es, expected. auto.
  - destruct (proj2 (@aggregation_formulas ref_runtime ref_order)
                (Example.document Example.tagged_week) Example.simple_config
                Example.tagged_week_result)
      as (st & expected & Hst & _ & _ & _ & _ & _ & He & Hm & _).
    { vm_compute; reflexivity. }
    destruct (Hm 2025 eq_refl) as [Hx Hmiss]; [lia|].
    exists st, expected. auto.
Defined.

(** * C3: office takes priority over home *)

Lemma seg_effects_elem `{RT : PyRuntime} (config : Config) (segments : list Segment)
    (es : list Effect) (segment : Segment) (e : Effect) :
  seg_effects config segments = Ok es ->
  segment ∈ segments -> seg_effect config segment = Ok e -> e ∈ es.
Proof.
  revert es. induction segments as [|s rest IH]; intros es Hes Hin He.
  { inversion Hin. }
  simpl in Hes.
  destruct (seg_effect config s) as [e0|] eqn:E0; simpl in Hes; [|done].
  destruct (seg_effects config rest) as [es0|]; simpl in Hes; [|done].
  injection Hes as <-.
  apply elem_of_cons in Hin as [->|Hin].
  - rewrite E0 in He. injection He as ->. left.
  - right. eauto.
Qed.

(** C3.  If some segment of the document is a visit within the working hours
    of day [d] whose distance to the office is at most the radius (coordinate
    mode), or whose tag is a work tag (tag mode), then [d] is in the returned
    [office] list and not in the returned [home] list, whatever the other
    segments of that day are. *)
Theorem office_takes_priority `{RT : PyRuntime} `{SO : SetOrder} :
  (forall data config r segment d office_distance home_distance,
      categorize_days data config = Ok r ->
      segment ∈ get_or (semanticSegments data) [] ->
      seg_effect config segment = Ok (ELocated d office_distance home_distance) ->
      (office_distance <=? radius config)%float = true ->
      d ∈ office r /\ d ∉ home r)
  /\ (forall data config r segment d tag,
         categorize_days_simple data config = Ok r ->
         segment ∈ get_or (semanticSegments data) [] ->
         simple_effect config segment = SVisit d tag ->
         tag <> "" -> tag ∈ work_types config ->
         d ∈ s_office r /\ d ∉ s_home r).
Proof.
  split.
  - intros data config r segment d od hd Hr Hin He Hle.
    apply categorize_days_inv in Hr as (all & es & _ & Hes & ->).
    destruct (aggregate_members all (calendar_year config) (radius config) es d)
      as (Ho & Hh & _).
    assert (d ∈ marks (eff_office (radius config)) es) as Hd.
    { apply elem_of_marks_iff. exists (ELocated d od hd). split.
      - eapply seg_effects_elem; eauto.
      - simpl. rewrite Hle. reflexivity. }
    rewrite Ho, Hh. tauto.
  - intros data config r segment d tag Hr Hin He Htag Hwork.
    apply categorize_days_simple_inv in Hr as (all & _ & ->).
    set (es := simple_effect config <$> get_or (semanticSegments data) []).
    destruct (simple_aggregate_members all (s_calendar_year config) config es d)
      as (Ho & Hh & _).
    assert (d ∈ marks (seff_office config) es) as Hd.
    { apply elem_of_marks_iff. exists (SVisit d tag). split.
      - rewrite <- He. apply list_elem_of_fmap_2. exact Hin.
      - simpl. rewrite bool_decide_true by exact Hwork.
        destruct tag; [done|reflexivity]. }
    rewrite Ho, Hh. tauto.
Qed.

Example home_visit_of_the_office_day :
  exists hd od,
    @seg_effect ref_runtime Example.config
      (Example.visit_at "2025-01-01T09:30:00.000+01:00" Example.at_home)
    = Ok (ELocated "2025-01-01" od hd)
    /\ (od <=? radius Example.config)%float = false
    /\ (hd <=? radius Example.config)%float = true.
Proof. do 2 eexists. vm_compute. repeat split. Qed.

Lemma office_takes_priority_witness :
  ("2025-01-01" ∈ office Example.week_result /\ "2025-01-01" ∉ home Example.week_result)
  /\ ("2025-01-01" ∈ s_office Example.tagged_week_result
      /\ "2025-01-01" ∉ s_home Example.tagged_week_result).
Proof.
  split.
  - eapply (proj1 (@office_takes_priority ref_runtime ref_order)
              (Example.document Example.week) Example.config Example.week_result
              (Example.visit_at "2025-01-01T10:00:00.000+01:00" Example.at_office)
              "2025-01-01" _ _).
    3: vm_compute; reflexivity.
    + vm_compute; reflexivity.
    + right; left.
    + vm_compute; reflexivity.
  - apply (proj2 (@office_takes_priority ref_runtime ref_order)
             (Example.document Example.tagged_week) Example.simple_config
             Example.tagged_week_result
             (Example.tagged "2025-01-01T10:00:00.000+01:00" "WORK")
             "2025-01-01" "WORK").
    + vm_compute; reflexivity.
    + right; left.
    + vm_compute; reflexivity.
    + discriminate.
    + vm_compute. set_solver.
Defined.

(** * C4: the four lists cover the expected working days *)

Section coverage.
Context {RT : PyRuntime} {SO : SetOrder}.

Lemma coordinate_coverage (data : Timeline) (config : Config) (r : Result)
    (y : Z) (expected : gset string) (d : string) :
  categorize_days data config = Ok r ->
  calendar_year config = Some y -> y <> 0 ->
  get_all_working_days_in_year y (days_of_week config) = Ok expected ->
  d ∈ expected ->
  d ∈ office r \/ d ∈ home r \/ d ∈ elsewhere r \/ d ∈ missing r.
Proof.
  intros Hr Hy Hy0 Hexp Hd.
  apply categorize_days_inv in Hr as (all & es & Hall & _ & ->).
  assert (year_truthy (calendar_year config) = true) as Hty.
  { rewrite Hy. simpl. apply Z.eqb_neq in Hy0. rewrite Hy0. reflexivity. }
  assert (all = expected) as ->.
  { unfold expected_days in Hall. rewrite Hty, Hy in Hall. simpl in Hall. congruence. }
  destruct (aggregate_members expected (calendar_year config) (radius config) es d)
    as (Ho & Hh & He & Hm).
  rewrite Ho, Hh, He, Hm.
  destruct (decide (d ∈ marks eff_visit es)); [|tauto].
  destruct (decide (d ∈ marks (eff_office (radius config)) es)); [tauto|].
  destruct (decide (d ∈ marks (eff_home (radius config)) es)); tauto.
Qed.

Lemma tag_coverage (data : Timeline) (config : SimpleConfig) (r : SimpleResult)
    (y : Z) (expected : gset string) (d : string) :
  categorize_days_simple data config = Ok r ->
  s_calendar_year config = Some y -> y <> 0 ->
  get_all_working_days_in_year y (s_days_of_week config) = Ok expected ->
  d ∈ expected ->
  d ∈ s_office r \/ d ∈ s_home r \/ d ∈ s_elsewhere r \/ d ∈ s_missing r.
Proof.
  intros Hr Hy Hy0 Hexp Hd.
  apply categorize_days_simple_inv in Hr as (all & Hall & ->).
  assert (year_truthy (s_calendar_year config) = true) as Hty.
  { rewrite Hy. simpl. apply Z.eqb_neq in Hy0. rewrite Hy0. reflexivity. }
  assert (all = expected) as ->.
  { unfold expected_days in Hall. rewrite Hty, Hy in Hall. simpl in Hall. congruence. }
  set (es := simple_effect config <$> get_or (semanticSegments data) []).
  destruct (simple_aggregate_members expected (s_calendar_year config) config es d)
    as (Ho & Hh & He & Hm).
  rewrite Ho, Hh, He, Hm.
  destruct (decide (d ∈ marks seff_data es)); [|tauto].
  destruct (decide (d ∈ marks (seff_office config) es)); [tauto|].
  destruct (decide (d ∈ marks (seff_home config) es)); tauto.
Qed.

End coverage.

(** C4 as the specification states it does not hold: there is no runtime,
    document and configuration with a calendar year, in either mode, for
    which an expected working day is in none of the four returned lists. *)
Lemma uncovered_day_impossible :
  ~ ((exists (RT : PyRuntime) (SO : SetOrder) data config r y expected d,
         categorize_days data config = Ok r
         /\ calendar_year config = Some y /\ y <> 0
         /\ get_all_working_days_in_year y (days_of_week config) = Ok expected
         /\ d ∈ expected
         /\ (d ∉ office r) /\ (d ∉ home r) /\ (d ∉ elsewhere r) /\ d ∉ missing r)
     \/ (exists (RT : PyRuntime) (SO : SetOrder) data config r y expected d,
            categorize_days_simple data config = Ok r
            /\ s_calendar_year config = Some y /\ y <> 0
            /\ get_all_working_days_in_year y (s_days_of_week config) = Ok expected
            /\ d ∈ expected
            /\ (d ∉ s_office r) /\ (d ∉ s_home r) /\ (d ∉ s_elsewhere r)
            /\ d ∉ s_missing r)).
Proof.
  intros [(RT & SO & data & config & r & y & expected & d & Hr & Hy & Hy0 & He & Hd & H1 & H2 & H3 & H4)
         |(RT & SO & data & config & r & y & expected & d & Hr & Hy & Hy0 & He & Hd & H1 & H2 & H3 & H4)].
  - destruct (coordinate_coverage data config r y expected d Hr Hy Hy0 He Hd)
      as [?|[?|[?|?]]]; contradiction.
  - destruct (tag_coverage data config r y expected d Hr Hy Hy0 He Hd)
      as [?|[?|[?|?]]]; contradiction.
Qed.

(** C4, amended.  With a calendar year configured, every day that
    [get_all_working_days_in_year] returns for that year is in at least one of
    the four returned lists, in coordinate mode and in tag mode: the union of
    office, home, elsewhere and missing covers the expected working days. *)
Theorem expected_days_covered `{RT : PyRuntime} `{SO : SetOrder} :
  (forall data config r y expected d,
      categorize_days data config = Ok r ->
      calendar_year config = Some y -> y <> 0 ->
      get_all_working_days_in_year y (days_of_week config) = Ok expected ->
      d ∈ expected ->
      d ∈ office r \/ d ∈ home r \/ d ∈ elsewhere r \/ d ∈ missing r)
  /\ (forall data config r y expected d,
         categorize_days_simple data config = Ok r ->
         s_calendar_year config = Some y -> y <> 0 ->
         get_all_working_days_in_year y (s_days_of_week config) = Ok expected ->
         d ∈ expected ->
         d ∈ s_office r \/ d ∈ s_home r \/ d ∈ s_elsewhere r \/ d ∈ s_missing r).
Proof.
  split; intros data config r y expected d.
  - apply coordinate_coverage.
  - apply tag_coverage.
Qed.

Lemma expected_days_covered_witness :
  ("2025-01-07" ∈ office Example.week_result \/ "2025-01-07" ∈ home Example.week_result
   \/ "2025-01-07" ∈ elsewhere Example.week_result
   \/ "2025-01-07" ∈ missing Example.week_result)
  /\ ("2025-01-07" ∈ s_office Example.tagged_week_result
      \/ "2025-01-07" ∈ s_home Example.tagged_week_result
      \/ "2025-01-07" ∈ s_elsewhere Example.tagged_week_result
      \/ "2025-01-07" ∈ s_missing Example.tagged_week_result).
Proof.
  split.
  - apply (proj1 (@expected_days_covered ref_runtime ref_order)
             (Example.document Example.week) Example.config Example.week_result
             2025 Example.expected_2025 "2025-01-07").
    + vm_compute; reflexivity.
    + reflexivity.
    + lia.
    + apply get_all_working_days_in_year_spec; lia.
    + apply (bool_decide_unpack _). vm_compute. exact I.
  - apply (proj2 (@expected_days_covered ref_runtime ref_order)
             (Example.document Example.tagged_week) Example.simple_config
             Example.tagged_week_result 2025 Example.expected_2025 "2025-01-07").
    + vm_compute; reflexivity.
    + reflexivity.
    + lia.
    + apply get_all_working_days_in_year_spec; lia.
    + apply (bool_decide_unpack _). vm_compute. exact I.
Defined.

(** * C10: the order of the returned lists *)

(** The four lists that [sorted] builds are sorted, in both modes. *)
Lemma main_lists_sorted `{RT : PyRuntime} `{SO : SetOrder} :
  (forall data config r,
      categorize_days data config = Ok r ->
      Sorted str_le (office r) /\ Sorted str_le (home r)
      /\ Sorted str_le (elsewhere r) /\ Sorted str_le (missing r))
  /\ (forall data config r,
         categorize_days_simple data config = Ok r ->
         Sorted str_le (s_office r) /\ Sorted str_le (s_home r)
         /\ Sorted str_le (s_elsewhere r) /\ Sorted str_le (s_missing r)).
Proof.
  split; intros data config r Hr.
  - apply categorize_days_inv in Hr as (all & es & _ & _ & ->).
    unfold aggregate; simpl. repeat split; apply Sorted_sorted.
  - apply categorize_days_simple_inv in Hr as (all & _ & ->).
    unfold simple_aggregate; simpl. repeat split; apply Sorted_sorted.
Qed.

Lemma main_lists_sorted_witness :
  Sorted str_le (elsewhere Example.week_result)
  /\ Sorted str_le (s_elsewhere Example.tagged_week_result).
Proof.
  split.
  - apply (proj1 (@main_lists_sorted ref_runtime ref_order)
             (Example.document Example.week) Example.config Example.week_result).
    vm_compute; reflexivity.
  - apply (proj2 (@main_lists_sorted ref_runtime ref_order)
             (Example.document Example.tagged_week) Example.simple_config
             Example.tagged_week_result).
    vm_compute; reflexivity.
Defined.

(** C10, at the input where the code departs from it.  Two elsewhere days a
    kilometre from the office, in a run whose set iteration meets January 3
    before January 2: [elsewhere] is sorted, the [local] tier list is in the
    order of the iteration and is not sorted. *)
Theorem tier_list_in_iteration_order :
  exists r,
    @categorize_days ref_runtime Example.late_first
      (Example.document Example.two_local_days) Example.config = Ok r
    /\ elsewhere r = ["2025-01-02"; "2025-01-03"]
    /\ local (elsewhere_breakdown r) = ["2025-01-03"; "2025-01-02"]
    /\ ~ Sorted str_le (local (elsewhere_breakdown r)).
Proof.
  eexists. split; [vm_compute; reflexivity|].
  split; [reflexivity|]. split; [reflexivity|].
  simpl. intros Hs. inversion Hs as [|? ? _ Hd]; subst.
  inversion Hd as [|? ? Hle]; subst. vm_compute in Hle. discriminate.
Qed.

(** * C8: the working-hours predicate *)

Lemma split_nonempty (c : ascii) (s : string) : PyStr.split c s <> [].
Proof.
  destruct s as [|x s]; simpl; [discriminate|].
  destruct (Ascii.eqb x c); [discriminate|].
  destruct (PyStr.split c s); discriminate.
Qed.

Lemma split_no_sep (c : ascii) (s : string) :
  contains_char c s = false -> PyStr.split c s = [s].
Proof.
  induction s as [|x s IH]; simpl; [reflexivity|].
  destruct (Ascii.eqb x c); simpl; [discriminate|].
  intros Hs. rewrite (IH Hs). reflexivity.
Qed.

Lemma split_app (c : ascii) (a b : string) :
  contains_char c a = false ->
  PyStr.split c (a ++ String c b) = a :: PyStr.split c b.
Proof.
  induction a as [|x a IH]; simpl.
  - rewrite Ascii.eqb_refl. reflexivity.
  - destruct (Ascii.eqb x c); simpl; [discriminate|].
    intros Ha. rewrite (IH Ha). reflexivity.
Qed.



(** ** Formatting an hour and a minute, and reading them back *)













Lemma append_String (c : ascii) (a b : string) :
  (String c a ++ b)%string = String c (a ++ b).
Proof. reflexivity. Qed.

Lemma append_nil (b : string) : (EmptyString ++ b)%string = b.
Proof. reflexivity. Qed.








Lemma contains_char_app (c : ascii) (a b : string) :
  contains_char c (a ++ b) = contains_char c a || contains_char c b.
Proof.
  induction a as [|x a IH]; [reflexivity|].
  rewrite append_String. simpl. rewrite IH. apply orb_assoc.
Qed.










(** * C7: the coordinate parser *)

Lemma replace_aux_skip (old new : string) (k : nat) (c : ascii) (s : string) :
  PyStr.replace_aux old new (S k) (String c s) = PyStr.replace_aux old new k s.
Proof. reflexivity. Qed.

Lemma replace_aux_here (old new : string) (c : ascii) (s : string) :
  PyStr.replace_aux old new 0 (String c s)
  = if String.prefix old (String c s)
    then (new ++ PyStr.replace_aux old new (String.length old - 1) s)%string
    else String c (PyStr.replace_aux old new 0 s).
Proof. reflexivity. Qed.

Lemma replace_degree_plain (a rest : string) :
  contains_char "194" a = false ->
  PyStr.replace degree_sign "" (a ++ rest) = (a ++ PyStr.replace degree_sign "" rest)%string.
Proof.
  unfold PyStr.replace. induction a as [|c a IH]; [reflexivity|].
  rewrite !append_String. intros Hc. simpl in Hc.
  apply orb_false_iff in Hc as [Hc Ha].
  rewrite replace_aux_here.
  assert (String.prefix degree_sign (String c (a ++ rest)) = false) as ->.
  { unfold degree_sign. cbn [String.prefix].
    destruct (ascii_dec "194" c) as [<-|_]; [discriminate Hc|reflexivity]. }
  rewrite (IH Ha). reflexivity.
Qed.

Lemma replace_degree_sign (rest : string) :
  PyStr.replace degree_sign "" (degree_sign ++ rest) = PyStr.replace degree_sign "" rest.
Proof.
  unfold PyStr.replace, degree_sign. rewrite !append_String, append_nil.
  cbn [PyStr.replace_aux String.prefix String.length].
  destruct (ascii_dec "194" "194") as [_|N]; [|destruct N; reflexivity].
  destruct (ascii_dec "176" "176") as [_|N]; [|destruct N; reflexivity].
  destruct rest; reflexivity.
Qed.

Lemma append_nil_r (x : string) : (x ++ "")%string = x.
Proof. induction x as [|c x IH]; [reflexivity|rewrite append_String, IH; reflexivity]. Qed.

Lemma replace_degree_none (a : string) :
  contains_char "194" a = false -> PyStr.replace degree_sign "" a = a.
Proof.
  intros Ha. rewrite <- (append_nil_r a) at 1.
  rewrite replace_degree_plain by exact Ha. apply append_nil_r.
Qed.

Lemma replace_degree_nil : PyStr.replace degree_sign "" "" = "".
Proof. reflexivity. Qed.

Lemma contains_char_replace_aux (c : ascii) (old : string) (k : nat) (s : string) :
  contains_char c s = false -> contains_char c (PyStr.replace_aux old "" k s) = false.
Proof.
  revert k. induction s as [|x s IH]; intros k H; [reflexivity|].
  simpl in H. apply orb_false_iff in H as [Hx Hs].
  destruct k as [|k]; [|rewrite replace_aux_skip; apply IH, Hs].
  rewrite replace_aux_here.
  destruct (String.prefix old (String x s)).
  - rewrite append_nil. apply IH, Hs.
  - simpl. rewrite Hx. apply IH, Hs.
Qed.

Lemma lstrip_space (s : string) : PyStr.strip (String " " s) = PyStr.strip s.
Proof. reflexivity. Qed.

Section parse_latlng_facts.
Context {RT : PyRuntime}.

Lemma parse_latlng_two_fields (s p0 p1 : string) (rest : list string) :
  PyStr.split "," (PyStr.replace degree_sign "" s) = p0 :: p1 :: rest ->
  parse_latlng s = latlng_of_fields p0 p1.
Proof.
  intros Hs. unfold parse_latlng, parse_latlng_try, latlng_of_fields. rewrite Hs. simpl.
  destruct (float_of_str (PyStr.strip p0)); simpl; [|reflexivity].
  destruct (float_of_str (PyStr.strip p1)); reflexivity.
Qed.

Lemma parse_latlng_one_field (s p0 : string) :
  PyStr.split "," (PyStr.replace degree_sign "" s) = [p0] ->
  parse_latlng s = (None, None).
Proof.
  intros Hs. unfold parse_latlng, parse_latlng_try. rewrite Hs. simpl.
  destruct (float_of_str (PyStr.strip p0)); reflexivity.
Qed.

Lemma latlng_of_fields_space (a b : string) :
  latlng_of_fields a (String " " b) = latlng_of_fields a b.
Proof. reflexivity. Qed.

Lemma parse_latlng_plain (a b : string) :
  plain_field a -> plain_field b ->
  parse_latlng (a ++ ", " ++ b) = latlng_of_fields a b.
Proof.
  intros [Ha1 Ha2] [Hb1 Hb2].
  rewrite <- latlng_of_fields_space.
  apply (parse_latlng_two_fields _ _ _ []).
  rewrite replace_degree_plain by exact Ha2.
  rewrite (replace_degree_none (", " ++ b)) by (simpl; exact Hb2).
  change (", " ++ b)%string with (String "," (String " " b)).
  rewrite split_app by exact Ha1.
  rewrite split_no_sep by (simpl; exact Hb1). reflexivity.
Qed.

Lemma parse_latlng_degrees (a b : string) :
  plain_field a -> plain_field b ->
  parse_latlng (a ++ degree_sign ++ ", " ++ b ++ degree_sign) = latlng_of_fields a b.
Proof.
  intros [Ha1 Ha2] [Hb1 Hb2].
  rewrite <- latlng_of_fields_space.
  apply (parse_latlng_two_fields _ _ _ []).
  rewrite replace_degree_plain by exact Ha2.
  rewrite replace_degree_sign.
  change (", " ++ b ++ degree_sign)%string
    with (String "," (String " " b) ++ (degree_sign ++ ""))%string.
  rewrite replace_degree_plain by (simpl; exact Hb2).
  rewrite replace_degree_sign, replace_degree_nil, append_nil_r.
  rewrite split_app by exact Ha1.
  rewrite split_no_sep by (simpl; exact Hb1). reflexivity.
Qed.

Lemma parse_latlng_no_comma (s : string) :
  contains_char "," s = false -> parse_latlng s = (None, None).
Proof.
  intros Hs. apply (parse_latlng_one_field _ (PyStr.replace degree_sign "" s)).
  apply split_no_sep. apply contains_char_replace_aux. exact Hs.
Qed.

Lemma parse_latlng_extra_fields (a b c : string) :
  plain_field a -> plain_field b -> contains_char "194" c = false ->
  parse_latlng (a ++ "," ++ b ++ "," ++ c) = latlng_of_fields a b.
Proof.
  intros [Ha1 Ha2] [Hb1 Hb2] Hc.
  assert (PyStr.replace degree_sign "" (a ++ "," ++ b ++ "," ++ c)
          = (a ++ String "," (b ++ String "," c))%string) as Hrep.
  { rewrite replace_degree_plain by exact Ha2. f_equal.
    apply replace_degree_none. simpl. rewrite contains_char_app. simpl.
    rewrite Hb2, Hc. reflexivity. }
  pose proof (split_nonempty "," c) as Hne.
  destruct (PyStr.split "," c) as [|p ps] eqn:Ec; [done|].
  apply (parse_latlng_two_fields _ _ _ (p :: ps)).
  rewrite Hrep, split_app, split_app, Ec by assumption. reflexivity.
Qed.

End parse_latlng_facts.

(** C7 as the specification states it does not hold for a string with more
    than two fields: the fields after the second are not read, and the string
    parses. *)
Lemma three_fields_parse :
  @parse_latlng ref_runtime "1, 2, 3" = (Some 1%float, Some 2%float).
Proof. vm_compute. reflexivity. Qed.

(** C7, amended.  For fields [a] and [b] free of commas and of the degree
    sign, [parse_latlng] maps [a°, b°], and the same string without the degree
    signs, to the pair of the floats that [float] reads from the two stripped
    fields, and to the pair [(None, None)] when [float] refuses one of them; a
    string without a comma, the empty string among them, gives
    [(None, None)]; fields after the second are ignored.  No input raises. *)
Theorem parse_latlng_fields `{RT : PyRuntime} :
  (forall a b,
      plain_field a -> plain_field b ->
      parse_latlng (a ++ degree_sign ++ ", " ++ b ++ degree_sign) = latlng_of_fields a b
      /\ parse_latlng (a ++ ", " ++ b) = latlng_of_fields a b)
  /\ (forall s, contains_char "," s = false -> parse_latlng s = (None, None))
  /\ (forall a b c,
         plain_field a -> plain_field b -> contains_char "194" c = false ->
         parse_latlng (a ++ "," ++ b ++ "," ++ c) = latlng_of_fields a b).
Proof.
  split; [|split].
  - intros a b Ha Hb. split; [apply parse_latlng_degrees|apply parse_latlng_plain]; assumption.
  - apply @parse_latlng_no_comma.
  - apply @parse_latlng_extra_fields.
Qed.

Lemma parse_latlng_fields_witness :
  (@parse_latlng ref_runtime Example.at_office = (Some 52.520008%float, Some 13.404954%float)
   /\ @parse_latlng ref_runtime "52.52, 13.40" = (Some 52.52%float, Some 13.4%float))
  /\ @parse_latlng ref_runtime "52.52" = (None, None)
  /\ @parse_latlng ref_runtime "" = (None, None)
  /\ @parse_latlng ref_runtime "52.52, north" = (None, None)
  /\ @parse_latlng ref_runtime "1,2,3" = (Some 1%float, Some 2%float).
Proof.
  split; [split|split; [|split; [|split]]].
  - apply (proj1 (proj1 (@parse_latlng_fields ref_runtime) "52.520008" "13.404954"
                    (conj eq_refl eq_refl) (conj eq_refl eq_refl))).
  - apply (proj2 (proj1 (@parse_latlng_fields ref_runtime) "52.52" "13.40"
                    (conj eq_refl eq_refl) (conj eq_refl eq_refl))).
  - apply (proj1 (proj2 (@parse_latlng_fields ref_runtime)) "52.52" eq_refl).
  - apply (proj1 (proj2 (@parse_latlng_fields ref_runtime)) "" eq_refl).
  - apply (proj2 (proj1 (@parse_latlng_fields ref_runtime) "52.52" "north"
                    (conj eq_refl eq_refl) (conj eq_refl eq_refl))).
  - apply (proj2 (proj2 (@parse_latlng_fields ref_runtime)) "1" "2" "3"
             (conj eq_refl eq_refl) (conj eq_refl eq_refl) eq_refl).
Defined.

(** ** Comparisons of floats *)

Lemma spec_float_eq_dec_nan (x : spec_float) : x = S754_nan \/ x <> S754_nan.
Proof. destruct x; [right|right|left|right]; congruence. Qed.


Lemma SFcompare_key (x y : spec_float) :
  x <> S754_nan -> y <> S754_nan ->
  exists c, SFcompare x y = Some c
            /\ (c = Lt <-> key_lt (float_key x) (float_key y))
            /\ (c = Eq <-> float_key x = float_key y)
            /\ (c = Gt <-> key_lt (float_key y) (float_key x)).
Proof.
  intros Hx Hy. unfold key_lt.
  destruct x as [sx|sx| |sx mx ex], y as [sy|sy| |sy my ey]; try congruence;
    simpl; try destruct sx; try destruct sy; simpl;
    try solve [eexists; split; [reflexivity|];
               repeat split; intros; first [discriminate | lia | congruence]].
  - (* both negative *)
    destruct (Z.compare_spec ex ey) as [E|L|G].
    + rewrite Pos.compare_cont_spec. simpl.
      destruct (Pos.compare_spec mx my) as [Em|Lm|Gm]; simpl;
        (eexists; split; [reflexivity|]);
        repeat split; intros; first [discriminate | lia | congruence | idtac].
      all: injection H as ? ?; lia.
    + eexists; split; [reflexivity|].
      repeat split; intros; first [discriminate | lia | idtac]. injection H as ? ?; lia.
    + eexists; split; [reflexivity|].
      repeat split; intros; first [discriminate | lia | idtac]. injection H as ? ?; lia.
  - (* both positive *)
    destruct (Z.compare_spec ex ey) as [E|L|G].
    + rewrite Pos.compare_cont_spec. simpl.
      destruct (Pos.compare_spec mx my) as [Em|Lm|Gm]; simpl;
        (eexists; split; [reflexivity|]);
        repeat split; intros; first [discriminate | lia | congruence | idtac].
      all: injection H as ? ?; lia.
    + eexists; split; [reflexivity|].
      repeat split; intros; first [discriminate | lia | idtac]. injection H as ? ?; lia.
    + eexists; split; [reflexivity|].
      repeat split; intros; first [discriminate | lia | idtac]. injection H as ? ?; lia.
Qed.

Lemma leb_key (a b : float) :
  (a <=? b)%float = true <-> not_nan a /\ not_nan b /\ key_le (fkey a) (fkey b).
Proof.
  rewrite FloatAxioms.leb_spec. unfold SFleb, not_nan, fkey, key_le.
  destruct (spec_float_eq_dec_nan (Prim2SF a)) as [Ea|Na].
  { rewrite Ea. simpl. split; [discriminate|]. intros [H _]. congruence. }
  destruct (spec_float_eq_dec_nan (Prim2SF b)) as [Eb|Nb].
  { rewrite Eb. destruct (Prim2SF a); simpl; (split; [discriminate|]); intros (_ & H & _); congruence. }
  destruct (SFcompare_key _ _ Na Nb) as (c & -> & HLt & HEq & HGt).
  unfold key_lt in *.
  destruct c; split; intros H; try discriminate; try (repeat split; try assumption).
  - assert (float_key (Prim2SF a) = float_key (Prim2SF b)) as E by (apply HEq; reflexivity).
    rewrite E. lia.
  - assert (Lt = Lt) as E by reflexivity. apply HLt in E. lia.
  - exfalso. assert (Gt = Gt) as E by reflexivity. apply HGt in E.
    destruct H as (_ & _ & H). lia.
Qed.

Lemma ltb_key (a b : float) :
  (a <? b)%float = true <-> not_nan a /\ not_nan b /\ key_lt (fkey a) (fkey b).
Proof.
  rewrite FloatAxioms.ltb_spec. unfold SFltb, not_nan, fkey.
  destruct (spec_float_eq_dec_nan (Prim2SF a)) as [Ea|Na].
  { rewrite Ea. simpl. split; [discriminate|]. intros [H _]. congruence. }
  destruct (spec_float_eq_dec_nan (Prim2SF b)) as [Eb|Nb].
  { rewrite Eb. destruct (Prim2SF a); simpl; (split; [discriminate|]); intros (_ & H & _); congruence. }
  destruct (SFcompare_key _ _ Na Nb) as (c & -> & HLt & HEq & HGt).
  destruct c; split; intros H; try discriminate; try (repeat split; try assumption).
  - exfalso. destruct H as (_ & _ & H).
    assert (float_key (Prim2SF a) = float_key (Prim2SF b)) as E by (apply HEq; reflexivity).
    rewrite E in H. unfold key_lt in H. lia.
  - apply HLt. reflexivity.
  - exfalso. assert (Gt = Gt) as E by reflexivity. apply HGt in E.
    destruct H as (_ & _ & H). unfold key_lt in *. lia.
Qed.

Lemma is_nan_false (a : float) : is_nan a = false <-> not_nan a.
Proof.
  unfold is_nan, not_nan. rewrite negb_false_iff, FloatAxioms.eqb_spec. unfold SFeqb.
  destruct (spec_float_eq_dec_nan (Prim2SF a)) as [Ea|Na].
  { rewrite Ea. simpl. split; [discriminate|congruence]. }
  destruct (SFcompare_key _ _ Na Na) as (c & -> & HLt & HEq & HGt).
  destruct c; split; intros H; try reflexivity; try assumption.
  - assert (Lt = Lt) as E by reflexivity. apply HLt in E. unfold key_lt in E. lia.
  - assert (Gt = Gt) as E by reflexivity. apply HGt in E. unfold key_lt in E. lia.
Qed.

Lemma key_le_refl (k : Z * Z * Z) : key_le k k.
Proof. unfold key_le. lia. Qed.

Lemma key_le_trans (a b c : Z * Z * Z) : key_le a b -> key_le b c -> key_le a c.
Proof. unfold key_le. lia. Qed.

Lemma key_lt_le (a b : Z * Z * Z) : key_lt a b -> key_le a b.
Proof. unfold key_lt, key_le. lia. Qed.

Lemma key_lt_or_le (a b : Z * Z * Z) : key_lt a b \/ key_le b a.
Proof. unfold key_lt, key_le. lia. Qed.

Lemma key_le_antisym (a b : Z * Z * Z) : key_le a b -> key_le b a -> a = b.
Proof.
  destruct a as [[a1 a2] a3], b as [[b1 b2] b3]. unfold key_le. simpl.
  intros H1 H2. repeat f_equal; lia.
Qed.

Lemma key_lt_not_le (a b : Z * Z * Z) : key_lt a b -> ~ key_le b a.
Proof. unfold key_lt, key_le. lia. Qed.

(** Floats with the same key are the same float, or the two zeros. *)
Lemma fkey_eq (a b : float) :
  not_nan a -> not_nan b -> fkey a = fkey b ->
  a = b \/ (is_zero_float a /\ is_zero_float b).
Proof.
  unfold not_nan, fkey, is_zero_float. intros Ha Hb E.
  rewrite <- (SF2Prim_Prim2SF a), <- (SF2Prim_Prim2SF b).
  destruct (Prim2SF a) as [sa|sa| |sa ma ea], (Prim2SF b) as [sb|sb| |sb mb eb];
    try congruence; simpl in E.
  - right. destruct sa, sb; simpl; auto.
  - destruct sb; discriminate.
  - destruct sb; discriminate.
  - destruct sa; discriminate.
  - left. destruct sa, sb; try discriminate; reflexivity.
  - destruct sa, sb; discriminate.
  - destruct sa; discriminate.
  - destruct sa, sb; discriminate.
  - left. destruct sa, sb; try discriminate; injection E as ? ?; f_equal; f_equal; lia.
Qed.

(** ** The tier breakdown *)

Lemma breakdown_step_tier (dmd : gmap string float) (b : Breakdown) (day : string) (t : Tier) :
  tier_list (breakdown_step dmd b day) t
  = (tier_list b t
     ++ (if decide (tier_of_distance <$> dmd !! day = Some t) then [day] else []))%list.
Proof.
  unfold breakdown_step, tier_of_distance.
  destruct (dmd !! day) as [d|]; simpl; [|destruct t; rewrite app_nil_r; reflexivity].
  destruct (d / 1000 <? 50)%float; [|destruct (d / 1000 <? 150)%float;
    [|destruct (d / 1000 <? 500)%float]];
    destruct t; simpl; rewrite ?app_nil_r; reflexivity.
Qed.

Lemma breakdown_fold_tier (dmd : gmap string float) (days : list string) (b : Breakdown)
    (t : Tier) :
  tier_list (fold_left (breakdown_step dmd) days b) t
  = (tier_list b t
     ++ filter (fun day => tier_of_distance <$> dmd !! day = Some t) days)%list.
Proof.
  revert b. induction days as [|day days IH]; intros b; simpl.
  - rewrite app_nil_r. reflexivity.
  - rewrite IH, breakdown_step_tier, <- app_assoc. f_equal.
    rewrite filter_cons. destruct (decide _); reflexivity.
Qed.

Lemma track_min_lookup (day d : string) (m : float) (dmd : gmap string float) :
  track_min d m dmd !! day
  = if decide (d = day) then keep_min (dmd !! day) m else dmd !! day.
Proof.
  unfold track_min, keep_min. destruct (decide (d = day)) as [->|Hne].
  - destruct (dmd !! day) as [c|] eqn:E.
    + destruct (m <? c)%float; [apply lookup_insert_eq|exact E].
    + apply lookup_insert_eq.
  - destruct (dmd !! d) as [c|].
    + destruct (m <? c)%float; [apply lookup_insert_ne; exact Hne|reflexivity].
    + apply lookup_insert_ne; exact Hne.
Qed.

Lemma tracked_lookup (day : string) (es : list Effect) (dmd : gmap string float) :
  fold_left track_effect es dmd !! day
  = fold_left keep_min (day_candidates day es) (dmd !! day).
Proof.
  revert dmd. induction es as [|e es IH]; intros dmd; [reflexivity|].
  simpl. rewrite IH. unfold track_effect, day_candidates. simpl.
  destruct (eff_distance e) as [[d m]|]; [|reflexivity].
  rewrite track_min_lookup. destruct (decide (d = day)); reflexivity.
Qed.

(** The entry kept for a day is one of the candidates and is at most each
    of them, when none of them is a NaN. *)
Lemma keep_min_minimum (l : list float) (c r : float) :
  Forall not_nan (c :: l) ->
  fold_left keep_min l (Some c) = Some r ->
  r ∈ c :: l /\ forall x, x ∈ c :: l -> (r <=? x)%float = true.
Proof.
  revert c. induction l as [|m l IH]; intros c Hall; simpl.
  - intros [= <-]. split; [left|]. intros x Hx.
    apply list_elem_of_singleton in Hx as ->.
    apply Forall_cons in Hall as [Hc _].
    apply leb_key. repeat split; try assumption. apply key_le_refl.
  - apply Forall_cons in Hall as [Hc Hall]. pose proof Hall as Hml.
    apply Forall_cons in Hall as [Hm Hl].
    intros Hr.
    destruct (m <? c)%float eqn:Hlt.
    + destruct (IH m Hml Hr) as [Hin Hmin]. split; [right; exact Hin|].
      intros x Hx. apply elem_of_cons in Hx as [->|Hx]; [|apply Hmin, Hx].
      apply ltb_key in Hlt as (_ & _ & Hlt).
      specialize (Hmin m ltac:(left)). apply leb_key in Hmin as (Hr' & _ & Hmin).
      apply leb_key. repeat split; try assumption.
      eapply key_le_trans; [exact Hmin|apply key_lt_le, Hlt].
    + assert (Forall not_nan (c :: l)) as Hcl by (constructor; assumption).
      destruct (IH c Hcl Hr) as [Hin Hmin]. split.
      * apply elem_of_cons in Hin as [->|Hin]; [left|right; right; exact Hin].
      * intros x Hx. apply elem_of_cons in Hx as [->|Hx]; [apply Hmin; left|].
        apply elem_of_cons in Hx as [->|Hx]; [|apply Hmin; right; exact Hx].
        specialize (Hmin c ltac:(left)). apply leb_key in Hmin as (Hr' & _ & Hmin).
        apply leb_key. repeat split; try assumption.
        eapply key_le_trans; [exact Hmin|].
        destruct (key_lt_or_le (fkey m) (fkey c)) as [Hlt'|Hle]; [|exact Hle].
        assert ((m <? c)%float = true) as Habs by (apply ltb_key; auto).
        congruence.
Qed.

Lemma tier_of_zero (a : float) : is_zero_float a -> tier_of_distance a = Local.
Proof. intros [->| ->]; reflexivity. Qed.

(** Two floats that are at most each other are in the same tier. *)
Lemma tier_of_equivalent (a b : float) :
  (a <=? b)%float = true -> (b <=? a)%float = true ->
  tier_of_distance a = tier_of_distance b.
Proof.
  intros Hab Hba.
  apply leb_key in Hab as (Ha & Hb & Hab), Hba as (_ & _ & Hba).
  destruct (fkey_eq a b Ha Hb (key_le_antisym _ _ Hab Hba)) as [->|[Za Zb]];
    [reflexivity|].
  rewrite (tier_of_zero a Za), (tier_of_zero b Zb). reflexivity.
Qed.

(** Reordering the candidates of a day does not change its tier. *)
Lemma keep_min_perm_tier (l l' : list float) :
  l ≡ₚ l' -> Forall not_nan l ->
  tier_of_distance <$> fold_left keep_min l None
  = tier_of_distance <$> fold_left keep_min l' None.
Proof.
  intros Hp Hall.
  assert (Forall not_nan l') as Hall' by (rewrite <- Hp; exact Hall).
  destruct l as [|c l]; [apply Permutation_nil_l in Hp; subst; reflexivity|].
  destruct l' as [|c' l']; [apply Permutation_nil_r in Hp; discriminate|].
  simpl.
  assert (forall (l0 : list float) (c0 : float), exists r, fold_left keep_min l0 (Some c0) = Some r)
    as Hex.
  { induction l0 as [|m l0 IH0]; intros c0; simpl; eauto. }
  destruct (Hex l c) as [r Hr], (Hex l' c') as [r' Hr'].
  rewrite Hr, Hr'. simpl. f_equal.
  destruct (keep_min_minimum l c r Hall Hr) as [Hin Hmin].
  destruct (keep_min_minimum l' c' r' Hall' Hr') as [Hin' Hmin'].
  apply tier_of_equivalent.
  - apply Hmin. rewrite Hp. exact Hin'.
  - apply Hmin'. rewrite <- Hp. exact Hin.
Qed.

(** ** Reordering the segments *)

Lemma marks_perm {A} (f : A -> option string) (es es' : list A) :
  es ≡ₚ es' -> marks f es = marks f es'.
Proof. intros Hp. unfold marks. rewrite Hp. reflexivity. Qed.

Lemma day_candidates_perm (day : string) (es es' : list Effect) :
  es ≡ₚ es' -> day_candidates day es ≡ₚ day_candidates day es'.
Proof. intros Hp. unfold day_candidates. rewrite Hp. reflexivity. Qed.

Lemma seg_effects_perm `{RT : PyRuntime} (config : Config) (segments segments' : list Segment)
    (es : list Effect) :
  segments ≡ₚ segments' ->
  seg_effects config segments = Ok es ->
  exists es', seg_effects config segments' = Ok es' /\ es ≡ₚ es'.
Proof.
  intros Hp. revert es.
  induction Hp as [|s l l' Hp IH|s1 s2 l|l1 l2 l3 Hp1 IH1 Hp2 IH2]; intros es; simpl.
  - intros [= <-]. eauto.
  - destruct (seg_effect config s) as [e|]; simpl; [|discriminate].
    destruct (seg_effects config l) as [es0|]; simpl; [|discriminate].
    intros [= <-]. destruct (IH es0 eq_refl) as (es' & -> & Hes). simpl.
    exists (e :: es'). split; [reflexivity|]. constructor. exact Hes.
  - destruct (seg_effect config s2) as [e2|]; simpl; [|discriminate].
    destruct (seg_effect config s1) as [e1|]; simpl; [|discriminate].
    destruct (seg_effects config l) as [es0|]; simpl; [|discriminate].
    intros [= <-]. exists (e1 :: e2 :: es0). split; [reflexivity|]. constructor.
  - intros Hes. destruct (IH1 es Hes) as (es2 & Hes2 & Hp12).
    destruct (IH2 es2 Hes2) as (es3 & Hes3 & Hp23).
    exists es3. split; [exact Hes3|]. etransitivity; eassumption.
Qed.

Lemma seg_effects_Forall `{RT : PyRuntime} (config : Config) (segments : list Segment)
    (es : list Effect) (P : Effect -> Prop) :
  seg_effects config segments = Ok es ->
  (forall segment e, segment ∈ segments -> seg_effect config segment = Ok e -> P e) ->
  Forall P es.
Proof.
  revert es. induction segments as [|s l IH]; intros es; simpl.
  - intros [= <-] _. constructor.
  - destruct (seg_effect config s) as [e|] eqn:Ee; simpl; [|discriminate].
    destruct (seg_effects config l) as [es0|]; simpl; [|discriminate].
    intros [= <-] HP. constructor.
    + apply (HP s e); [left|exact Ee].
    + apply IH; [reflexivity|]. intros s' e' Hin. apply HP. right. exact Hin.
Qed.

Lemma day_candidates_not_nan (day : string) (es : list Effect) :
  Forall (fun e => match eff_distance e with
                   | Some (_, m) => not_nan m
                   | None => True
                   end) es ->
  Forall not_nan (day_candidates day es).
Proof.
  induction 1 as [|e es He _ IH]; [constructor|].
  unfold day_candidates. simpl. fold (day_candidates day es).
  destruct (eff_distance e) as [[d m]|]; [|exact IH].
  destruct (decide (d = day)); [constructor; assumption|exact IH].
Qed.

Lemma nan_free_candidates `{RT : PyRuntime} (config : Config) (segments : list Segment)
    (es : list Effect) (day : string) :
  seg_effects config segments = Ok es ->
  nan_free config segments ->
  Forall not_nan (day_candidates day es).
Proof.
  intros Hes Hfree. apply day_candidates_not_nan.
  apply (seg_effects_Forall config segments es _ Hes).
  intros s e Hin He. destruct e as [| | | | |d od hd]; simpl; try exact I.
  apply is_nan_false. eapply Hfree; eassumption.
Qed.

Lemma breakdown_ext (b b' : Breakdown) :
  (forall t, tier_list b t = tier_list b' t) -> b = b'.
Proof.
  intros H. destruct b, b'.
  pose proof (H Local). pose proof (H Regional).
  pose proof (H National). pose proof (H International).
  simpl in *. congruence.
Qed.

Lemma filter_pointwise {A} (P Q : A -> Prop) `{!forall x, Decision (P x)}
    `{!forall x, Decision (Q x)} (l : list A) :
  (forall x, x ∈ l -> (P x <-> Q x)) -> filter P l = filter Q l.
Proof.
  induction l as [|x l IH]; intros Hpq; [reflexivity|].
  rewrite !filter_cons.
  assert (filter P l = filter Q l) as ->
    by (apply IH; intros y Hy; apply Hpq; right; exact Hy).
  destruct (decide (P x)) as [HP|HP], (decide (Q x)) as [HQ|HQ]; try reflexivity.
  - destruct HQ. apply Hpq; [left|exact HP].
  - destruct HP. apply Hpq; [left|exact HQ].
Qed.

(** The tier lists of a result: the days of the set iteration that the
    recorded distance puts in the tier. *)
Lemma aggregate_tier `{SO : SetOrder} (all : gset string) (cy : option Z) (st : Pass) (t : Tier) :
  tier_list (elsewhere_breakdown (aggregate all cy st)) t
  = filter (fun day => tier_of_distance <$> day_min_distances st !! day = Some t)
      (set_iter (days_with_working_hour_visits st ∖ office_days st
                 ∖ (home_days st ∖ office_days st))).
Proof. unfold aggregate. simpl. rewrite breakdown_fold_tier. destruct t; reflexivity. Qed.

Section reordering.
Context {RT : PyRuntime}.

Lemma aggregate_lists_perm (SO SO' : SetOrder) (all : gset string) (cy : option Z)
    (radius : float) (es es' : list Effect) :
  es ≡ₚ es' ->
  let r := @aggregate SO all cy (fold_left (apply_effect radius) es pass_init) in
  let r' := @aggregate SO' all cy (fold_left (apply_effect radius) es' pass_init) in
  office r' = office r /\ home r' = home r /\ elsewhere r' = elsewhere r
  /\ missing r' = missing r.
Proof.
  intros Hp.
  destruct (pass_sets radius es) as (Ho & Hh & _ & Hv & _).
  destruct (pass_sets radius es') as (Ho' & Hh' & _ & Hv' & _).
  cbv zeta. unfold aggregate. simpl.
  rewrite Ho, Hh, Hv, Ho', Hh', Hv'.
  rewrite !(marks_perm _ es es' Hp).
  repeat split; apply sorted_order_irrelevant.
Qed.

Lemma recorded_tier_perm (es es' : list Effect) (day : string) :
  es ≡ₚ es' ->
  Forall not_nan (day_candidates day es) ->
  tier_of_distance <$> fold_left track_effect es ∅ !! day
  = tier_of_distance <$> fold_left track_effect es' ∅ !! day.
Proof.
  intros Hp Hall. rewrite !tracked_lookup, lookup_empty.
  apply keep_min_perm_tier; [apply day_candidates_perm, Hp|exact Hall].
Qed.

Lemma aggregate_tiers_perm (SO SO' : SetOrder) (all : gset string) (cy : option Z)
    (radius : float) (es es' : list Effect) (t : Tier) :
  es ≡ₚ es' ->
  (forall day, Forall not_nan (day_candidates day es)) ->
  let r := @aggregate SO all cy (fold_left (apply_effect radius) es pass_init) in
  let r' := @aggregate SO' all cy (fold_left (apply_effect radius) es' pass_init) in
  tier_list (elsewhere_breakdown r') t ≡ₚ tier_list (elsewhere_breakdown r) t
  /\ (SO' = SO -> tier_list (elsewhere_breakdown r') t = tier_list (elsewhere_breakdown r) t).
Proof.
  intros Hp Hall.
  destruct (pass_sets radius es) as (Ho & Hh & _ & Hv & Hm).
  destruct (pass_sets radius es') as (Ho' & Hh' & _ & Hv' & Hm').
  cbv zeta. rewrite !aggregate_tier.
  rewrite Ho, Hh, Hv, Ho', Hh', Hv', Hm, Hm'.
  rewrite <- !(marks_perm _ es es' Hp).
  set (E := marks eff_visit es ∖ marks (eff_office radius) es
            ∖ (marks (eff_home radius) es ∖ marks (eff_office radius) es)).
  assert (forall l : list string,
             filter (fun day => tier_of_distance <$> fold_left track_effect es' ∅ !! day = Some t) l
             = filter (fun day => tier_of_distance <$> fold_left track_effect es ∅ !! day = Some t) l)
    as Hf.
  { intros l. apply filter_pointwise. intros day _.
    rewrite (recorded_tier_perm es es' day Hp (Hall day)). reflexivity. }
  rewrite Hf. split.
  - apply filter_Permutation. rewrite !set_iter_perm. reflexivity.
  - intros ->. reflexivity.
Qed.

End reordering.

(** * C5: the order of the segments *)

(** C5 as the specification states it does not hold in coordinate mode: a
    visit whose coordinates [float] reads as NaN, listed before a visit of the
    same day a kilometre from the office, leaves NaN as the recorded distance
    of the day, and the day is in the international tier; listed after it, the
    day is in the local tier. *)
Lemma nan_first_changes_the_tier :
  exists r r',
    [Example.nan_visit; Example.near_visit] ≡ₚ [Example.near_visit; Example.nan_visit]
    /\ @categorize_days ref_runtime ref_order
         (Example.document [Example.nan_visit; Example.near_visit]) Example.config = Ok r
    /\ @categorize_days ref_runtime ref_order
         (Example.document [Example.near_visit; Example.nan_visit]) Example.config = Ok r'
    /\ international (elsewhere_breakdown r) = ["2025-01-02"]
    /\ local (elsewhere_breakdown r') = ["2025-01-02"]
    /\ r <> r'.
Proof.
  do 2 eexists. split; [apply perm_swap|].
  split; [vm_compute; reflexivity|]. split; [vm_compute; reflexivity|].
  split; [reflexivity|]. split; [reflexivity|]. discriminate.
Qed.

(** C5, amended.  Reordering the segments changes nothing in tag mode, and
    in coordinate mode it changes neither whether the call returns nor the
    lists office, home, elsewhere and missing, whatever the iteration orders
    of the two runs; when no located visit offers a NaN distance, every tier
    list keeps its days, and is the same list when the two runs iterate sets
    in the same order. *)
Theorem order_independence `{RT : PyRuntime} :
  (forall (SO SO' : SetOrder) config segments segments',
      segments ≡ₚ segments' ->
      @categorize_days_simple RT SO {| semanticSegments := Some segments |} config
      = @categorize_days_simple RT SO' {| semanticSegments := Some segments' |} config)
  /\ (forall (SO SO' : SetOrder) config segments segments' r,
         segments ≡ₚ segments' ->
         @categorize_days RT SO {| semanticSegments := Some segments |} config = Ok r ->
         exists r',
           @categorize_days RT SO' {| semanticSegments := Some segments' |} config = Ok r'
           /\ office r' = office r /\ home r' = home r
           /\ elsewhere r' = elsewhere r /\ missing r' = missing r
           /\ (nan_free config segments ->
               (forall t, tier_list (elsewhere_breakdown r') t
                          ≡ₚ tier_list (elsewhere_breakdown r) t)
               /\ (SO' = SO -> r' = r))).
Proof.
  split.
  - intros SO SO' config segments segments' Hp.
    unfold categorize_days_simple. simpl.
    destruct (expected_days _ _) as [all|]; simpl; [|reflexivity].
    rewrite !simple_loop_effects. f_equal.
    set (es := simple_effect config <$> segments).
    set (es' := simple_effect config <$> segments').
    assert (es ≡ₚ es') as Hes by (unfold es, es'; rewrite Hp; reflexivity).
    destruct (simple_pass_sets config es) as (Ho & Hh & Hd).
    destruct (simple_pass_sets config es') as (Ho' & Hh' & Hd').
    unfold simple_aggregate. rewrite Ho, Hh, Hd, Ho', Hh', Hd'.
    rewrite !(marks_perm _ es es' Hes).
    f_equal; apply sorted_order_irrelevant.
  - intros SO SO' config segments segments' r Hp Hr.
    apply categorize_days_inv in Hr as (all & es & Hall & Hes & ->). simpl in Hes.
    destruct (seg_effects_perm config segments segments' es Hp Hes) as (es' & Hes' & Hpe).
    exists (@aggregate SO' all (calendar_year config)
              (fold_left (apply_effect (radius config)) es' pass_init)).
    split.
    { unfold categorize_days. simpl. rewrite Hall. simpl.
      rewrite pass_loop_effects, Hes'. reflexivity. }
    destruct (aggregate_lists_perm SO SO' all (calendar_year config) (radius config)
                es es' Hpe) as (H1 & H2 & H3 & H4).
    do 4 (split; [assumption|]).
    intros Hfree.
    assert (forall day, Forall not_nan (day_candidates day es)) as Hnn
      by (intros day; eapply nan_free_candidates; eassumption).
    split.
    + intros t.
      apply (aggregate_tiers_perm SO SO' all (calendar_year config) (radius config)
               es es' t Hpe Hnn).
    + intros ->.
      assert (elsewhere_breakdown
                (aggregate all (calendar_year config)
                   (fold_left (apply_effect (radius config)) es' pass_init))
              = elsewhere_breakdown
                  (aggregate all (calendar_year config)
                     (fold_left (apply_effect (radius config)) es pass_init))) as Hb.
      { apply breakdown_ext. intros t.
        apply (aggregate_tiers_perm SO SO all (calendar_year config) (radius config)
                 es es' t Hpe Hnn). reflexivity. }
      cbv zeta in H1, H2, H3, H4.
      destruct (aggregate all (calendar_year config)
                  (fold_left (apply_effect (radius config)) es' pass_init)),
               (aggregate all (calendar_year config)
                  (fold_left (apply_effect (radius config)) es pass_init)).
      simpl in *. congruence.
Qed.

Lemma two_local_days_nan_free :
  @nan_free ref_runtime Example.config Example.two_local_days.
Proof.
  intros segment d od hd Hin He.
  apply elem_of_cons in Hin as [->|Hin];
    [|apply elem_of_cons in Hin as [->|Hin]; [|inversion Hin]];
    vm_compute in He; injection He as <- <- <-; vm_compute; reflexivity.
Qed.

Lemma order_independence_witness :
  @categorize_days_simple ref_runtime ref_order
    (Example.document
       [Example.tagged "2025-01-01T09:30:00Z" "HOME"; Example.tagged "2025-01-01T10:00:00Z" "WORK"])
    Example.simple_config
  = @categorize_days_simple ref_runtime Example.late_first
      (Example.document
         [Example.tagged "2025-01-01T10:00:00Z" "WORK"; Example.tagged "2025-01-01T09:30:00Z" "HOME"])
      Example.simple_config
  /\ exists r',
      @categorize_days ref_runtime Example.late_first
        (Example.document (reverse Example.two_local_days)) Example.config = Ok r'
      /\ office r' = [] /\ home r' = []
      /\ elsewhere r' = ["2025-01-02"; "2025-01-03"]
      /\ local (elsewhere_breakdown r')
         ≡ₚ local (elsewhere_breakdown Example.two_local_days_result).
Proof.
  split.
  - apply (proj1 (@order_independence ref_runtime) ref_order Example.late_first
             Example.simple_config). apply perm_swap.
  - destruct (proj2 (@order_independence ref_runtime) ref_order Example.late_first
                Example.config Example.two_local_days (reverse Example.two_local_days)
                Example.two_local_days_result)
      as (r' & Hr' & Ho & Hh & He & _ & Ht).
    + apply perm_swap.
    + vm_compute; reflexivity.
    + exists r'. split; [exact Hr'|].
      split; [rewrite Ho; reflexivity|]. split; [rewrite Hh; reflexivity|].
      split; [rewrite He; reflexivity|].
      destruct (Ht two_local_days_nan_free) as [Hperm _].
      exact (Hperm Local).
Defined.

(** * C6: the distance tiers *)

Lemma ltb_false_leb (a b : float) :
  not_nan a -> not_nan b -> ((a <? b)%float = false <-> (b <=? a)%float = true).
Proof.
  intros Ha Hb. rewrite leb_key. split.
  - intros Hf. repeat split; try assumption.
    destruct (key_lt_or_le (fkey a) (fkey b)) as [Hlt|Hle]; [|exact Hle].
    assert ((a <? b)%float = true) by (apply ltb_key; auto). congruence.
  - intros (_ & _ & Hle). destruct (a <? b)%float eqn:E; [|reflexivity].
    apply ltb_key in E as (_ & _ & Hlt). destruct (key_lt_not_le _ _ Hlt Hle).
Qed.

Lemma leb_trans (a b c : float) :
  (a <=? b)%float = true -> (b <=? c)%float = true -> (a <=? c)%float = true.
Proof.
  rewrite !leb_key. intros (Ha & _ & H1) (_ & Hc & H2).
  repeat split; try assumption. eapply key_le_trans; eassumption.
Qed.

Lemma ltb_leb_false (a b : float) :
  (a <? b)%float = true -> (b <=? a)%float = false.
Proof.
  intros Hlt. destruct (b <=? a)%float eqn:E; [|reflexivity].
  apply ltb_key in Hlt as (_ & _ & Hlt). apply leb_key in E as (_ & _ & Hle).
  destruct (key_lt_not_le _ _ Hlt Hle).
Qed.

Lemma ltb_nan_l (a b : float) : is_nan a = true -> (a <? b)%float = false.
Proof.
  intros Hn. destruct (a <? b)%float eqn:E; [|reflexivity].
  apply ltb_key in E as (Ha & _). apply is_nan_false in Ha. congruence.
Qed.

(** The tier of a recorded distance, by the kilometres it converts to. *)
Lemma tier_brackets (d : float) :
  let km := (d / 1000)%float in
  (is_nan km = true -> tier_of_distance d = International)
  /\ (is_nan km = false ->
      (tier_of_distance d = Local <-> (km <? 50)%float = true)
      /\ (tier_of_distance d = Regional <->
          (50 <=? km)%float = true /\ (km <? 150)%float = true)
      /\ (tier_of_distance d = National <->
          (150 <=? km)%float = true /\ (km <? 500)%float = true)
      /\ (tier_of_distance d = International <-> (500 <=? km)%float = true)).
Proof.
  cbv zeta. unfold tier_of_distance. set (km := (d / 1000)%float). split.
  - intros Hn. rewrite !(ltb_nan_l km) by exact Hn. reflexivity.
  - intros Hn. apply is_nan_false in Hn.
    assert (not_nan 50) as N50 by (apply is_nan_false; reflexivity).
    assert (not_nan 150) as N150 by (apply is_nan_false; reflexivity).
    assert (not_nan 500) as N500 by (apply is_nan_false; reflexivity).
    assert ((50 <=? 150)%float = true) as L1 by reflexivity.
    assert ((150 <=? 500)%float = true) as L2 by reflexivity.
    pose proof (ltb_false_leb km 50 Hn N50) as H50.
    pose proof (ltb_false_leb km 150 Hn N150) as H150.
    pose proof (ltb_false_leb km 500 Hn N500) as H500.
    destruct (km <? 50)%float eqn:E50.
    { assert ((50 <=? km)%float = false) as F50 by (apply ltb_leb_false, E50).
      assert ((150 <=? km)%float = false) as F150.
      { destruct (150 <=? km)%float eqn:E; [|reflexivity].
        rewrite (leb_trans 50 150 km L1 E) in F50. discriminate. }
      assert ((500 <=? km)%float = false) as F500.
      { destruct (500 <=? km)%float eqn:E; [|reflexivity].
        rewrite (leb_trans 150 500 km L2 E) in F150. discriminate. }
      repeat split; try discriminate; try reflexivity;
        intros; try congruence; destruct H; congruence. }
    assert ((50 <=? km)%float = true) as T50 by (apply H50; reflexivity).
    destruct (km <? 150)%float eqn:E150.
    { assert ((150 <=? km)%float = false) as F150 by (apply ltb_leb_false, E150).
      assert ((500 <=? km)%float = false) as F500.
      { destruct (500 <=? km)%float eqn:E; [|reflexivity].
        rewrite (leb_trans 150 500 km L2 E) in F150. discriminate. }
      repeat split; try discriminate; try reflexivity;
        intros; try congruence; destruct H; congruence. }
    assert ((150 <=? km)%float = true) as T150 by (apply H150; reflexivity).
    destruct (km <? 500)%float eqn:E500.
    { assert ((500 <=? km)%float = false) as F500 by (apply ltb_leb_false, E500).
      repeat split; try discriminate; try reflexivity;
        intros; try congruence; destruct H; congruence. }
    assert ((500 <=? km)%float = true) as T500 by (apply H500; reflexivity).
    repeat split; try discriminate; try reflexivity;
      intros; try congruence; destruct H; congruence.
Qed.

Lemma keep_min_some (l : list float) (c : float) :
  exists r, fold_left keep_min l (Some c) = Some r.
Proof. revert c. induction l as [|m l IH]; intros c; simpl; eauto. Qed.

Lemma keep_min_none (l : list float) : l = [] <-> fold_left keep_min l None = None.
Proof.
  destruct l as [|c l]; simpl; [tauto|].
  destruct (keep_min_some l c) as [r ->]. split; discriminate.
Qed.

(** C6 as the specification states it does not hold for a day whose only
    located visit has NaN coordinates: NaN is recorded, the kilometres are
    not at least 500, and the day is in the international tier. *)
Lemma nan_day_is_international :
  exists r,
    @categorize_days ref_runtime ref_order
      (Example.document [Example.nan_visit]) Example.config = Ok r
    /\ @seg_effect ref_runtime Example.config Example.nan_visit
       = Ok (ELocated "2025-01-02" nan nan)
    /\ elsewhere r = ["2025-01-02"]
    /\ international (elsewhere_breakdown r) = ["2025-01-02"]
    /\ (500 <=? py_min nan nan / 1000)%float = false.
Proof.
  eexists. split; [vm_compute; reflexivity|].
  split; [vm_compute; reflexivity|]. repeat split.
Qed.

(** C6, amended.  In a result of [categorize_days] a day is in the list of a
    tier exactly when it is an elsewhere day and the distance recorded for it
    is in that tier, so an elsewhere day with a recorded distance is in
    exactly one tier list, once, and a day without one is in none.  A
    distance is recorded exactly for the days with a located visit; when none
    of the day's distances is a NaN it is their minimum.  The tier of a
    distance [d] goes by its kilometres [d / 1000]: below 50 local, from 50 and
    below 150 regional, from 150 and below 500 national, from 500
    international; a NaN is international. *)
Theorem distance_tiers `{RT : PyRuntime} `{SO : SetOrder} :
  (forall data config r,
      categorize_days data config = Ok r ->
      exists es,
        seg_effects config (get_or (semanticSegments data) []) = Ok es
        /\ forall day,
            let candidates := day_candidates day es in
            let recorded := fold_left keep_min candidates None in
            (forall t, day ∈ tier_list (elsewhere_breakdown r) t <->
                       day ∈ elsewhere r /\ tier_of_distance <$> recorded = Some t)
            /\ (forall t, NoDup (tier_list (elsewhere_breakdown r) t))
            /\ (candidates = [] <-> recorded = None)
            /\ (forall m, recorded = Some m -> Forall not_nan candidates ->
                          m ∈ candidates
                          /\ forall x, x ∈ candidates -> (m <=? x)%float = true))
  /\ (forall d : float,
         let km := (d / 1000)%float in
         (is_nan km = true -> tier_of_distance d = International)
         /\ (is_nan km = false ->
             (tier_of_distance d = Local <-> (km <? 50)%float = true)
             /\ (tier_of_distance d = Regional <->
                 (50 <=? km)%float = true /\ (km <? 150)%float = true)
             /\ (tier_of_distance d = National <->
                 (150 <=? km)%float = true /\ (km <? 500)%float = true)
             /\ (tier_of_distance d = International <-> (500 <=? km)%float = true))).
Proof.
  split; [|exact tier_brackets].
  intros data config r Hr.
  apply categorize_days_inv in Hr as (all & es & _ & Hes & ->).
  exists es. split; [exact Hes|]. intros day. cbv zeta.
  destruct (pass_sets (radius config) es) as (Ho & Hh & _ & Hv & Hm).
  assert (forall t, tier_list (elsewhere_breakdown
                      (aggregate all (calendar_year config)
                         (fold_left (apply_effect (radius config)) es pass_init))) t
                    = filter (fun day => tier_of_distance
                                <$> fold_left keep_min (day_candidates day es) None = Some t)
                        (set_iter (marks eff_visit es ∖ marks (eff_office (radius config)) es
                           ∖ (marks (eff_home (radius config)) es
                              ∖ marks (eff_office (radius config)) es)))) as Htier.
  { intros t. rewrite aggregate_tier, Ho, Hh, Hv, Hm.
    apply filter_pointwise. intros d _. rewrite tracked_lookup, lookup_empty. reflexivity. }
  split; [|split; [|split]].
  - intros t. rewrite Htier, list_elem_of_filter, elem_of_set_iter.
    unfold aggregate. simpl. rewrite elem_of_sorted, Ho, Hh, Hv. tauto.
  - intros t. rewrite Htier. apply NoDup_filter, NoDup_set_iter.
  - apply keep_min_none.
  - intros m Hrec Hall.
    destruct (day_candidates day es) as [|c l]; [discriminate|].
    simpl in Hrec. apply (keep_min_minimum l c m Hall Hrec).
Qed.

Lemma distance_tiers_witness :
  exists es,
    @seg_effects ref_runtime Example.config Example.week = Ok es
    /\ ("2025-01-06" ∈ international (elsewhere_breakdown Example.week_result) <->
        "2025-01-06" ∈ elsewhere Example.week_result
        /\ tier_of_distance <$> fold_left keep_min (day_candidates "2025-01-06" es) None
           = Some International).
Proof.
  destruct (proj1 (@distance_tiers ref_runtime ref_order)
              (Example.document Example.week) Example.config Example.week_result)
    as (es & Hes & Hday).
  - vm_compute; reflexivity.
  - exists es. split; [exact Hes|].
    destruct (Hday "2025-01-06") as (Ht & _). exact (Ht International).
Defined.
